(** * RAG service: a shallow embedding of the backend pipelines

    The development follows [backend/src/rag.py], [backend/src/qdrant.py]
    and [backend/src/app.py].  Python exceptions become an error type,
    the module-level clients (Qdrant, OpenAI, the web loader) become an
    explicit world that every function threads through, and
    [str.format] is transcribed from CPython's replacement-field
    scanner so that templates are handled as text.  Calls to [logger]
    only write to the process log and are left out; a [try] block whose
    handler logs and re-raises is an [except] with the identity handler
    where the body has effects, and nothing at all where the body is a
    pure [result]. *)

From Stdlib Require Import String Ascii ZArith List Lia.
From stdpp Require Import base option strings list gmap.

Local Open Scope string_scope.
Local Open Scope list_scope.

(** ** Exceptions and results *)

(** The exceptions the backend can see.  The first five are Python's
    own; [HTTPException] is FastAPI's; the remaining ones are raised by
    the external collaborators (Qdrant client, web loader, OpenAI
    client, pydantic). *)
Inductive exn : Type :=
| FileNotFoundError (msg : string)
| KeyError (key : string)
| IndexError (msg : string)
| ValueError (msg : string)
| ObjectError (msg : string)
| HTTPException (status_code : Z) (detail : string)
| CollectionAlreadyExists (name : string)
| CollectionNotFound (name : string)
| FetchError (url : string)
| LLMProviderError (msg : string)
| ValidationError (msg : string)
| EmbeddingProviderError (text : string)
| StoreUnavailable (collection_name : string).

Inductive result (A : Type) : Type :=
| Ok (a : A)
| Err (e : exn).
Arguments Ok {A} a.
Arguments Err {A} e.

#[global] Instance result_ret : MRet result := fun A a => Ok a.
#[global] Instance result_bind : MBind result := fun A B k r =>
  match r with
  | Ok a => k a
  | Err e => Err e
  end.

(** [s] occurs verbatim inside [t]. *)
Definition occurs_in (s t : string) : Prop :=
  exists pre post, t = pre +:+ s +:+ post.

Definition nl : string := String (ascii_of_nat 10) EmptyString.

(** ** Python's [str.format] *)

Module PyFormat.

(** A replacement field [{name!c:spec}] as the scanner delivers it. *)
Record field : Type := Field {
  f_name : string;
  f_conv : option ascii;
  f_spec : string
}.

Inductive segment : Type :=
| Lit (text : string)
| Fld (f : field).

(** The scanner of [MarkupIterator_next] and [parse_field], one state
    per program point that reads a character. *)
Inductive scan_state : Type :=
| SLit (lit : string)
| SOpen (lit : string)
| SClose (lit : string)
| SName (name : string)
| SBracket (name : string)
| SConv (name : string)
| SConvEnd (name : string) (c : ascii)
| SSpec (name : string) (conv : option ascii) (spec : string) (open : nat).

Definition snoc (s : string) (c : ascii) : string := s +:+ String c EmptyString.

Definition step_name (name : string) (c : ascii) : list segment * (exn + scan_state) :=
  if Ascii.eqb c "{" then ([], inl (ValueError "unexpected '{' in field name"))
  else if Ascii.eqb c "[" then ([], inr (SBracket (snoc name c)))
  else if Ascii.eqb c "}" then ([Fld (Field name None "")], inr (SLit ""))
  else if Ascii.eqb c ":" then ([], inr (SSpec name None "" 1))
  else if Ascii.eqb c "!" then ([], inr (SConv name))
  else ([], inr (SName (snoc name c))).

Definition step (st : scan_state) (c : ascii) : list segment * (exn + scan_state) :=
  match st with
  | SLit lit =>
      if Ascii.eqb c "{" then ([], inr (SOpen lit))
      else if Ascii.eqb c "}" then ([], inr (SClose lit))
      else ([], inr (SLit (snoc lit c)))
  | SOpen lit =>
      if Ascii.eqb c "{" then ([Lit (snoc lit c)], inr (SLit ""))
      else let '(out, next) := step_name "" c in (Lit lit :: out, next)
  | SClose lit =>
      if Ascii.eqb c "}" then ([Lit (snoc lit c)], inr (SLit ""))
      else ([], inl (ValueError "Single '}' encountered in format string"))
  | SName name => step_name name c
  | SBracket name =>
      if Ascii.eqb c "]" then ([], inr (SName (snoc name c)))
      else ([], inr (SBracket (snoc name c)))
  | SConv name => ([], inr (SConvEnd name c))
  | SConvEnd name conv =>
      if Ascii.eqb c "}" then ([Fld (Field name (Some conv) "")], inr (SLit ""))
      else if Ascii.eqb c ":" then ([], inr (SSpec name (Some conv) "" 1))
      else ([], inl (ValueError "expected ':' after conversion specifier"))
  | SSpec name conv spec open =>
      if Ascii.eqb c "{" then ([], inr (SSpec name conv (snoc spec c) (S open)))
      else if Ascii.eqb c "}" then
        match open with
        | 0 | 1 => ([Fld (Field name conv spec)], inr (SLit ""))
        | S open' => ([], inr (SSpec name conv (snoc spec c) open'))
        end
      else ([], inr (SSpec name conv (snoc spec c) open))
  end.

(** What the scanner does when the text ends in state [st]. *)
Definition finish (st : scan_state) : list segment * option exn :=
  match st with
  | SLit "" => ([], None)
  | SLit lit => ([Lit lit], None)
  | SOpen _ => ([], Some (ValueError "Single '{' encountered in format string"))
  | SClose _ => ([], Some (ValueError "Single '}' encountered in format string"))
  | SName _ | SBracket _ => ([], Some (ValueError "expected '}' before end of string"))
  | SConv _ =>
      ([], Some (ValueError "end of string while looking for conversion specifier"))
  | SConvEnd _ _ | SSpec _ _ _ _ => ([], Some (ValueError "unmatched '{' in format spec"))
  end.

(** The segments read before the first syntax error, and that error. *)
Fixpoint scan (st : scan_state) (s : string) : list segment * option exn :=
  match s with
  | EmptyString => finish st
  | String c s' =>
      match step st c with
      | (out, inl e) => (out, Some e)
      | (out, inr st') => let '(segs, err) := scan st' s' in (out ++ segs, err)
      end
  end.

Definition markup (template : string) : list segment * option exn :=
  scan (SLit "") template.

(** [string.Formatter().parse]: the whole template, or its syntax error. *)
Definition parse (template : string) : result (list segment) :=
  match markup template with
  | (segs, None) => Ok segs
  | (_, Some e) => Err e
  end.

Definition fields (segs : list segment) : list field :=
  omap (fun sg => match sg with Fld f => Some f | Lit _ => None end) segs.

(** [field_name_split]: the argument name is the text before the first
    [.] or [[]; the rest is the attribute and index chain. *)
Fixpoint split_name (name : string) : string * string :=
  match name with
  | EmptyString => ("", "")
  | String c name' =>
      if Ascii.eqb c "." || Ascii.eqb c "[" then ("", name)
      else let '(a, rest) := split_name name' in (String c a, rest)
  end.

Definition arg_name (f : field) : string := fst (split_name (f_name f)).

Definition is_digit (c : ascii) : bool :=
  (48 <=? nat_of_ascii c)%nat && (nat_of_ascii c <=? 57)%nat.

Fixpoint all_digits (s : string) : bool :=
  match s with
  | EmptyString => true
  | String c s' => is_digit c && all_digits s'
  end.

(** [get_integer]'s value of a digit string. *)
Fixpoint decimal (acc : N) (s : string) : N :=
  match s with
  | EmptyString => acc
  | String c s' => decimal (10 * acc + (N.of_nat (nat_of_ascii c) - 48))%N s'
  end.

Definition PY_SSIZE_T_MAX : N := 9223372036854775807.

(** An empty or numeric argument name indexes the positional tuple. *)
Definition positional (arg : string) : bool :=
  match arg with
  | EmptyString => true
  | _ => all_digits arg
  end.

(** What Python's object protocol does with a value once a field asks
    for more than its plain text: attribute and index access, the
    conversions [!r], [!s], [!a], and a non-empty format spec.  [None]
    is a raised exception. *)
Record object_protocol : Type := ObjectProtocol {
  py_resolve : string -> string -> option ascii -> option (string -> option string);
  py_format : string -> string -> option string
}.

Definition raised {A} (what : string) (o : option A) : result A :=
  match o with
  | Some a => Ok a
  | None => Err (ObjectError what)
  end.

Section Format.
Variable py : object_protocol.
(** The keyword arguments; the call has no positional arguments. *)
Variable kwargs : gmap string string.

(** [get_field_object], first component. *)
Definition lookup_arg (arg : string) : result string :=
  if positional arg then
    if (PY_SSIZE_T_MAX <? decimal 0 arg)%N
    then Err (ValueError "Too many decimal digits in format string")
    else Err (IndexError "Replacement index out of range for positional args tuple")
  else
    match kwargs !! arg with
    | Some v => Ok v
    | None => Err (KeyError arg)
    end.

Definition resolve (v rest : string) (conv : option ascii)
  : result (string -> result string) :=
  match rest, conv with
  | EmptyString, None =>
      Ok (fun spec =>
            match spec with
            | EmptyString => Ok v
            | _ => raised "__format__" (py_format py v spec)
            end)
  | _, _ =>
      f ← raised "field lookup" (py_resolve py v rest conv);
      Ok (fun spec => raised "__format__" (f spec))
  end.

Definition needs_expanding (spec : string) : bool :=
  existsb (Ascii.eqb "{") (list_ascii_of_string spec).

Fixpoint render (markup_out : field -> result string) (segs : list segment)
  : result string :=
  match segs with
  | [] => Ok ""
  | Lit text :: segs' => out ← render markup_out segs'; Ok (text +:+ out)
  | Fld f :: segs' =>
      here ← markup_out f;
      out ← render markup_out segs';
      Ok (here +:+ out)
  end.

(** [output_markup]: look the argument up, follow accessors and
    conversion, expand a nested format spec, then format. *)
Definition output_markup (expand : string -> result string) (f : field)
  : result string :=
  let '(arg, rest) := split_name (f_name f) in
  v ← lookup_arg arg;
  fmt ← resolve v rest (f_conv f);
  spec ← (if needs_expanding (f_spec f) then expand (f_spec f) else Ok (f_spec f));
  fmt spec.

(** [build_string]; [depth] is [recursion_depth].  Segments are
    written in order, so a syntax error is raised only after the
    fields before it were formatted. *)
Fixpoint build_string (depth : nat) (template : string) : result string :=
  match depth with
  | 0 => Err (ValueError "Max string recursion exceeded")
  | S depth' =>
      let '(segs, err) := markup template in
      out ← render (output_markup (build_string depth')) segs;
      match err with
      | Some e => Err e
      | None => Ok out
      end
  end.

(** [template.format] called with keyword arguments only. *)
Definition format (template : string) : result string :=
  build_string 2 template.
End Format.

End PyFormat.

(** ** Data model *)

(** A LangChain [Document]: chunk text plus metadata. *)
Record Document : Type := mkDocument {
  page_content : string;
  metadata : gmap string string
}.

Inductive Distance : Type := COSINE | EUCLID | DOT.

(** A collection of the vector store: its fixed vector parameters and
    the chunks inserted so far, oldest first. *)
Record collection : Type := mkCollection {
  vector_size : Z;
  distance : Distance;
  points : list Document
}.

(** Values of Python's [Any] that travel through the answer dictionary. *)
Inductive pyval : Type :=
| VStr (s : string)
| VDocs (docs : list Document)
| VNone.

(** Calls that leave the process. *)
Inductive call : Type :=
| CallCreateCollection (name : string) (size : Z) (dist : Distance)
| CallAddDocuments (name : string) (docs : list Document)
| CallSearch (name : string) (query : string) (k : nat)
| CallFetch (url : string)
| CallLLM (prompt : string).

(** What an HTTP request for a page came back with. *)
Record response : Type := mkResponse {
  resp_status : Z;
  resp_textual : bool;
  resp_body : string
}.

(** The collaborators the backend reads but does not own: the files
    [os.path.exists] and [open] see, Python's object protocol, the web
    (no response is a request that raised), the text extraction and
    the configured splitter, the embedding provider (does it return a
    vector for this text), the store (does it answer the search for
    this query, and in which order of nearness), the chat model and
    the text a [Document] prints as. *)
Record environment : Type := mkEnvironment {
  env_files : gmap string string;
  env_py : PyFormat.object_protocol;
  env_fetch : string -> option response;
  env_split : string -> string -> list Document;
  env_embeds : string -> bool;
  env_store_answers : string -> bool;
  env_rank : string -> list Document -> list Document;
  env_llm : string -> option string;
  env_doc_repr : Document -> string
}.

(** [WebBaseLoader(url).load_and_split(text_splitter)] as a function
    of the page: the loader is built with its defaults, so it does not
    look at the status or the content type of the response; whatever
    body came back is extracted and split.  [None] is a request that
    raised. *)
Definition env_load_and_split (env : environment) (url : string)
  : option (list Document) :=
  match env_fetch env url with
  | Some page => Some (env_split env url (resp_body page))
  | None => None
  end.

(** The hits a retrieval delivers for a query over the chunks of a
    collection: the store's ranking when the query is embedded and the
    store answers, no hit otherwise. *)
Definition env_nearest (env : environment) (query : string) (chunks : list Document)
  : list Document :=
  if env_embeds env query && env_store_answers env query
  then env_rank env query chunks
  else [].

Arguments env_load_and_split : simpl never.
Arguments env_nearest : simpl never.

(** The remote store and the log of outgoing calls. *)
Record world : Type := mkWorld {
  store : gmap string collection;
  calls : list call
}.

(** ** Effects: state over [world], exceptions over [exn] *)

Definition M (A : Type) : Type := world -> result A * world.

#[global] Instance M_ret : MRet M := fun A a w => (Ok a, w).
#[global] Instance M_bind : MBind M := fun A B k m w =>
  match m w with
  | (Ok a, w') => k a w'
  | (Err e, w') => (Err e, w')
  end.

Definition raise {A} (e : exn) : M A := fun w => (Err e, w).
Definition lift {A} (r : result A) : M A := fun w => (r, w).
Definition record (c : call) : M unit :=
  fun w => (Ok tt, mkWorld (store w) (calls w ++ [c])).

(** [try: body except Exception as e: raise handler(e)]. *)
Definition except {A} (body : M A) (handler : exn -> exn) : M A :=
  fun w =>
    match body w with
    | (Err e, w') => (Err (handler e), w')
    | done => done
    end.

(** [str(e)].  The wording of the collaborators' messages is schematic. *)
Definition exn_str (e : exn) : string :=
  match e with
  | FileNotFoundError msg | IndexError msg | ValueError msg | ObjectError msg
  | LLMProviderError msg | ValidationError msg => msg
  | KeyError key => "'" +:+ key +:+ "'"
  | HTTPException _ detail => detail
  | CollectionAlreadyExists name => "Collection " +:+ name +:+ " already exists"
  | CollectionNotFound name => "Collection " +:+ name +:+ " not found"
  | FetchError url => "Cannot fetch " +:+ url
  | EmbeddingProviderError text => "Cannot embed " +:+ text
  | StoreUnavailable name => "Store unavailable for " +:+ name
  end.

(** ** The collaborators *)

Module QdrantClient.

(** Modelled from the spec: the Qdrant service behind
    [client.create_collection], which is not part of the repository.
    The call allocates a new named partition and fails with
    [CollectionAlreadyExists] when the name is taken. *)
Definition create_collection (collection_name : string) (size : Z) (dist : Distance)
  : M unit :=
  fun w =>
    let w1 := mkWorld (store w) (calls w ++ [CallCreateCollection collection_name size dist]) in
    match store w !! collection_name with
    | Some _ => (Err (CollectionAlreadyExists collection_name), w1)
    | None =>
        (Ok tt, mkWorld (<[collection_name := mkCollection size dist []]> (store w)) (calls w1))
    end.

(** The chunks in front of the first one the embedding provider
    fails on. *)
Fixpoint embedded_prefix (env : environment) (documents : list Document)
  : list Document :=
  match documents with
  | [] => []
  | d :: documents' =>
      if env_embeds env (page_content d)
      then d :: embedded_prefix env documents'
      else []
  end.

(** The first chunk the embedding provider fails on, if there is one. *)
Fixpoint first_unembedded (env : environment) (documents : list Document)
  : option Document :=
  match documents with
  | [] => None
  | d :: documents' =>
      if env_embeds env (page_content d)
      then first_unembedded env documents'
      else Some d
  end.

(** Modelled from the spec: [insertChunks] behind
    [Qdrant.add_documents].  The call fails with [CollectionNotFound]
    when the collection is missing.  Otherwise an embedding is
    computed per chunk text and the chunk is inserted under a fresh
    id; the call is not transactional, so when the embedding provider
    fails on a chunk the chunks before it stay inserted and the call
    fails with [EmbeddingProviderError]. *)
Definition add_documents (env : environment) (collection_name : string)
    (documents : list Document) : M unit :=
  fun w =>
    let w1 := mkWorld (store w) (calls w ++ [CallAddDocuments collection_name documents]) in
    match store w !! collection_name with
    | None => (Err (CollectionNotFound collection_name), w1)
    | Some c =>
        let w2 :=
          mkWorld (<[collection_name :=
                       mkCollection (vector_size c) (distance c)
                                    (points c ++ embedded_prefix env documents)]>
                     (store w))
                  (calls w1) in
        match first_unembedded env documents with
        | None => (Ok tt, w2)
        | Some d => (Err (EmbeddingProviderError (page_content d)), w2)
        end
    end.

(** Modelled from the spec: steps 2 and 3 of the answer pipeline
    behind the retriever.  The query is embedded, which fails with
    [EmbeddingProviderError]; the store is searched, which fails with
    [StoreUnavailable] or [CollectionNotFound]; the [k] nearest chunks
    come back best first. *)
Definition search (env : environment) (collection_name query : string) (k : nat)
  : M (list Document) :=
  fun w =>
    let w1 := mkWorld (store w) (calls w ++ [CallSearch collection_name query k]) in
    if env_embeds env query then
      if env_store_answers env query then
        match store w !! collection_name with
        | None => (Err (CollectionNotFound collection_name), w1)
        | Some c => (Ok (take k (env_rank env query (points c))), w1)
        end
      else (Err (StoreUnavailable collection_name), w1)
    else (Err (EmbeddingProviderError query), w1).

End QdrantClient.

Module WebBaseLoader.

(** [WebBaseLoader(url).load_and_split(text_splitter)]: fetch, extract
    and split are the library's; a request that raises is the only
    fetch failure the loader reports. *)
Definition load_and_split (env : environment) (url : string) : M (list Document) :=
  _ ← record (CallFetch url);
  match env_load_and_split env url with
  | Some documents => mret documents
  | None => raise (FetchError url)
  end.

End WebBaseLoader.

Module ChatOpenAI.

(** [LLM.invoke(prompt).content]. *)
Definition invoke (env : environment) (prompt : string) : M string :=
  _ ← record (CallLLM prompt);
  match env_llm env prompt with
  | Some content => mret content
  | None => raise (LLMProviderError "completion failed")
  end.

End ChatOpenAI.

Module ChatPromptTemplate.

Record t : Type := mk {
  template : string;
  input_variables : list string
}.

(** A slot name the library accepts: no attribute access, no
    indexing, and not a number. *)
Definition valid_variable (v : string) : bool :=
  negb (existsb (fun c => Ascii.eqb c "." || Ascii.eqb c "[" || Ascii.eqb c "]")
          (list_ascii_of_string v))
  && negb (match v with
           | EmptyString => false
           | _ => PyFormat.all_digits v
           end).

(** Modelled from the spec: [ChatPromptTemplate.from_template] is
    LangChain's.  The rendered template is parsed once and its
    replacement fields become the slots the chain has to fill; a slot
    name with attribute access, indexing or only digits is refused
    with [ValueError]. *)
Definition from_template (text : string) : result t :=
  segs ← PyFormat.parse text;
  let variables := PyFormat.f_name <$> PyFormat.fields segs in
  if forallb valid_variable variables
  then mret (mk text variables)
  else Err (ValueError "Invalid variable name in f-string template").

(** [str] of a list of documents. *)
Definition docs_str (env : environment) (docs : list Document) : string :=
  "[" +:+ String.concat ", " (env_doc_repr env <$> docs) +:+ "]".

(** Modelled from the spec: step 4 of the answer pipeline, which
    LangChain performs outside the repository.  Every input variable
    must be supplied; then [string.Formatter], which reads templates as
    [str.format] does, substitutes the inputs into the template. *)
Definition invoke (env : environment) (p : t) (inputs : gmap string string)
  : result string :=
  match filter (fun v => inputs !! v = None) (input_variables p) with
  | missing :: _ => Err (KeyError missing)
  | [] => PyFormat.format (env_py env) inputs (template p)
  end.

End ChatPromptTemplate.

(** ** [backend/src/qdrant.py] *)

Module Qdrant.

Definition COLLECTION_NAME : string := "Wiki_2".

(** [Qdrant(client=client, collection_name=..., embeddings=...)]. *)
Record Qdrant : Type := mk {
  collection_name : string
}.

Definition vector_store : Qdrant := mk COLLECTION_NAME.

(** The splitter's configuration; the algorithm is LangChain's. *)
Definition chunk_size : nat := 1000.
Definition chunk_overlap : nat := 20.

Definition default_vector_size : Z := 1536.

(** The [try] block re-raises whatever the client raised. *)
Definition create_collection (collection_name : string) (vector_size : Z) : M unit :=
  except (QdrantClient.create_collection collection_name vector_size COSINE)
         (fun e => e).

(** [doc.metadata["source_url"] = url]. *)
Definition tag (url : string) (doc : Document) : Document :=
  mkDocument (page_content doc) (<["source_url" := url]> (metadata doc)).

Definition upload_documents (env : environment) (url collection_name : string) : M unit :=
  except
    (let dynamic_vector_store := mk collection_name in
     documents ← WebBaseLoader.load_and_split env url;
     let documents := tag url <$> documents in
     QdrantClient.add_documents env (Qdrant.collection_name dynamic_vector_store)
       documents)
    (fun e => e).

End Qdrant.

(** ** [backend/src/rag.py] *)

Module Rag.

(** A LangChain retriever: the store it reads, the number of results
    its search asks for, and the run configuration attached to it. *)
Record retriever : Type := mkRetriever {
  r_store : Qdrant.Qdrant;
  r_k : nat;
  r_config : list (string * nat)
}.

(** [vector_store.as_retriever()]: no search arguments are given, so
    the search asks for the library's default of four results. *)
Definition as_retriever (vs : Qdrant.Qdrant) : retriever :=
  mkRetriever vs 4 [].

(** [retriever.with_config(top_k=4)]. *)
Definition with_config (r : retriever) (key : string) (value : nat) : retriever :=
  mkRetriever (r_store r) (r_k r) ((key, value) :: r_config r).

Definition retriever_invoke (env : environment) (r : retriever) (query : string)
  : M (list Document) :=
  QdrantClient.search env (Qdrant.collection_name (r_store r)) query (r_k r).

Definition load_prompt_template (env : environment) (template_path question : string)
  : result string :=
  match env_files env !! template_path with
  | None => Err (FileNotFoundError ("Template file not found at " +:+ template_path))
  | Some template =>
      PyFormat.format (env_py env) {[ "question" := question ]} template
  end.

(** The chain [create_chain] returns: retrieval feeds the prompt, the
    prompt feeds the model, and the retrieved context is passed along. *)
Record chain : Type := mkChain {
  chain_retriever : retriever;
  chain_prompt : ChatPromptTemplate.t
}.

Definition create_chain (env : environment) (template_path question : string)
  : result chain :=
  template_prompt ← load_prompt_template env template_path question;
  formatted_prompt ← ChatPromptTemplate.from_template template_prompt;
  let retriever := as_retriever Qdrant.vector_store in
  let retriever_with_config := with_config retriever "top_k" 4 in
  mret (mkChain retriever_with_config formatted_prompt).

(** [chain.invoke(question)]: the answer text and the retrieved context. *)
Definition chain_invoke (env : environment) (c : chain) (question : string)
  : M (string * list Document) :=
  context ← retriever_invoke env (chain_retriever c) question;
  let inputs : gmap string string :=
    {[ "context" := ChatPromptTemplate.docs_str env context; "question" := question ]} in
  prompt ← lift (ChatPromptTemplate.invoke env (chain_prompt c) inputs);
  response ← ChatOpenAI.invoke env prompt;
  mret (response, context).

Definition get_answer (env : environment) (question template_path : string)
  : M (gmap string pyval) :=
  except
    (chain ← lift (create_chain env template_path question);
     response ← chain_invoke env chain question;
     let answer := fst response in
     let retrieved_context := snd response in
     mret ({[ "answer" := VStr answer; "context" := VDocs retrieved_context ]}
             : gmap string pyval))
    (fun e => e).

End Rag.

(** ** [backend/src/app.py] *)

Module App.

Record QueryRequest : Type := mkQueryRequest {
  question : string;
  template_path : option string
}.

Record QueryResponse : Type := mkQueryResponse {
  answer : string;
  context : pyval
}.

Record UploadRequest : Type := mkUploadRequest {
  url : string;
  collection_name : string
}.

Record JSONResponse : Type := mkJSONResponse {
  status_code : Z;
  message : string
}.

(** [QueryResponse(answer=..., context=...)]: [answer] is declared
    [str], [context] accepts anything. *)
Definition make_QueryResponse (answer context : pyval) : result QueryResponse :=
  match answer with
  | VStr s => Ok (mkQueryResponse s context)
  | _ => Err (ValidationError "answer: Input should be a valid string")
  end.

(** [f"{payload.template_path}"]. *)
Definition show_path (p : option string) : string := default "None" p.

(** [not payload.template_path or not os.path.exists(payload.template_path)]. *)
Definition template_missing (env : environment) (p : option string) : bool :=
  match p with
  | None | Some EmptyString => true
  | Some path => bool_decide (env_files env !! path = None)
  end.

(** The three [except] clauses of [chatbot_endpoint]. *)
Definition chatbot_handler (e : exn) : exn :=
  match e with
  | FileNotFoundError msg => HTTPException 400 ("Template file not found: " +:+ msg)
  | HTTPException status detail => HTTPException status detail
  | _ => HTTPException 500 "An unexpected error occurred while processing your request."
  end.

(** [chatbot_endpoint], with the answer pipeline it calls as an argument. *)
Definition chatbot_endpoint_with
    (get_answer : string -> string -> M (gmap string pyval))
    (env : environment) (payload : QueryRequest) : M QueryResponse :=
  except
    (_ ← (if template_missing env (template_path payload)
          then raise (HTTPException 400 ("Template file not found at path: "
                                          +:+ show_path (template_path payload)))
          else mret tt);
     response_data ← get_answer (question payload) (default "" (template_path payload));
     let answer := default (VStr "") (response_data !! "answer") in
     let context := default (VStr "") (response_data !! "context") in
     lift (make_QueryResponse answer context))
    chatbot_handler.

Definition chatbot_endpoint (env : environment) (payload : QueryRequest) : M QueryResponse :=
  chatbot_endpoint_with (Rag.get_answer env) env payload.

Definition upload_documents_endpoint (env : environment) (payload : UploadRequest)
  : M JSONResponse :=
  except
    (_ ← Qdrant.create_collection (collection_name payload) Qdrant.default_vector_size;
     _ ← Qdrant.upload_documents env (url payload) (collection_name payload);
     mret (mkJSONResponse 200
             ("Documents from '" +:+ url payload +:+ "' uploaded successfully to collection '"
              +:+ collection_name payload +:+ "'.")))
    (fun e => HTTPException 500 ("Error uploading documents: " +:+ exn_str e)).

End App.

(** Number of chunks stored in a collection; an absent collection holds none. *)
Definition chunk_count (w : world) (name : string) : nat :=
  match store w !! name with
  | Some c => length (points c)
  | None => 0
  end.

Definition llm_prompts (cs : list call) : list string :=
  omap (fun c => match c with CallLLM p => Some p | _ => None end) cs.

Definition searches (cs : list call) : list (string * string * nat) :=
  omap (fun c => match c with CallSearch n q k => Some (n, q, k) | _ => None end) cs.

Definition inserted (cs : list call) : list (string * list Document) :=
  omap (fun c => match c with CallAddDocuments n d => Some (n, d) | _ => None end) cs.

(** The exceptions [str.format] itself raises. *)
Definition format_error (e : exn) : Prop :=
  match e with
  | KeyError _ | IndexError _ | ValueError _ | ObjectError _ => True
  | _ => False
  end.

(** The template has a replacement field, as [str.format] reads it,
    whose argument is not [question]. *)
Definition references_unknown (template : string) : Prop :=
  exists f, f ∈ PyFormat.fields (PyFormat.markup template).1
            /\ PyFormat.arg_name f <> "question".

(** The chunk is tagged with the page it came from. *)
Definition tagged_with (url : string) (d : Document) : Prop :=
  metadata d !! "source_url" = Some url.

Definition carries_source (d : Document) : Prop :=
  is_Some (metadata d !! "source_url").

(** The store invariant: every stored chunk names its source. *)
Definition every_chunk_tagged (w : world) : Prop :=
  forall name c, store w !! name = Some c -> Forall carries_source (points c).

(** The [answer] entry, when present, is text, as [QueryResponse]
    declares it. *)
Definition answer_is_text (response_data : gmap string pyval) : Prop :=
  match response_data !! "answer" with
  | Some (VStr _) | None => True
  | Some _ => False
  end.

(** ** The scenarios of the specification, as concrete inputs *)

Module Scenario.

(** An object protocol in which every extended field request raises. *)
Definition py_plain : PyFormat.object_protocol :=
  PyFormat.ObjectProtocol (fun _ _ _ => None) (fun _ _ => None).

Definition doc_repr (d : Document) : string :=
  "Document(page_content='" +:+ page_content d +:+ "')".

Definition question : string := "What is 2+2?".
Definition context_text : string := "Basic arithmetic: 2+2=4.".
Definition chunk : Document := mkDocument context_text ∅.

(** The template of the scenario, and the same template with the
    context slot protected from [str.format]. *)
Definition template : string :=
  "Context: {context}" +:+ nl +:+ "Question: {question}" +:+ nl +:+ "Answer:".
Definition escaped_template : string :=
  "Context: {{context}}" +:+ nl +:+ "Question: {question}" +:+ nl +:+ "Answer:".

Definition template_path : string := "prompt_template.txt".
Definition page_url : string := "https://example.com/page".
Definition gone_url : string := "https://example.com/gone".

(** One template file; one page that is served, one address that is
    answered 404 with an error page, and no response for any other;
    every body is one chunk; an embedding provider and a store that
    answer, the store in insertion order; a model that answers. *)
Definition env (template_text : string) : environment :=
  mkEnvironment {[ template_path := template_text ]} py_plain
    (fun u => if String.eqb u page_url then Some (mkResponse 200 true context_text)
              else if String.eqb u gone_url then Some (mkResponse 404 true "Not Found")
              else None)
    (fun _ body => [mkDocument body ∅])
    (fun _ => true) (fun _ => true)
    (fun _ docs => docs) (fun _ => Some "4") doc_repr.

Definition empty_world : world := mkWorld ∅ [].

(** A store that holds the empty collection [c1]. *)
Definition c1_world : world := mkWorld {[ "c1" := mkCollection 1536 COSINE [] ]} [].

Definition wiki_world : world :=
  mkWorld {[ Qdrant.COLLECTION_NAME := mkCollection 1536 COSINE [chunk] ]} [].

(** Two identical requests to [/api/upload], one after the other. *)
Definition upload_request : App.UploadRequest := App.mkUploadRequest page_url "c1".

Definition first_upload : result App.JSONResponse * world :=
  App.upload_documents_endpoint (env "") upload_request empty_world.


(** An answer pipeline that returns a dictionary without any key. *)
Definition silent_pipeline (question template_path : string) : M (gmap string pyval) :=
  mret ∅.

End Scenario.

(** ** Shapes of template text *)

(** No character of the text is a brace, so [str.format] reads it as
    literal text. *)
Fixpoint brace_free (s : string) : bool :=
  match s with
  | EmptyString => true
  | String c s' =>
      negb (Ascii.eqb c "{") && negb (Ascii.eqb c "}") && brace_free s'
  end.

(** The exceptions the answer pipeline can raise once the template
    file is there. *)
Definition pipeline_error (e : exn) : Prop :=
  format_error e
  \/ e = CollectionNotFound Qdrant.COLLECTION_NAME
  \/ (exists msg, e = LLMProviderError msg)
  \/ (exists text, e = EmbeddingProviderError text)
  \/ e = StoreUnavailable Qdrant.COLLECTION_NAME.

(** The fetch failed in the sense of the specification: no response,
    an HTTP error status, or content that is not text. *)
Definition fetch_fails (env : environment) (url : string) : Prop :=
  match env_fetch env url with
  | None => True
  | Some page => (400 <= resp_status page)%Z \/ resp_textual page = false
  end.

(** The fixed detail of a 500 answer of [/api/rag]. *)
Definition unexpected_error : exn :=
  HTTPException 500 "An unexpected error occurred while processing your request.".

(** * Properties *)

(** ** The formatter *)

Section FormatFacts.
Import PyFormat.
Variable py : object_protocol.
Variable kwargs : gmap string string.

Lemma step_name_error name c out e :
  step_name name c = (out, inl e) -> exists m, e = ValueError m.
Proof.
  unfold step_name.
  repeat (case (Ascii.eqb c _)); intros [= _ <-] || intros [= _]; eauto.
Qed.

Lemma step_error st c out e :
  step st c = (out, inl e) -> exists m, e = ValueError m.
Proof.
  destruct st as [lit|lit|lit|name|name|name|name conv|name conv spec open]; cbn.
  - repeat (case (Ascii.eqb c _)); intros [= _]; discriminate.
  - case (Ascii.eqb c _); [intros [= _]; discriminate|].
    destruct (step_name "" c) as [out' next] eqn:Hs.
    intros [= _ ->]. eapply step_name_error, Hs.
  - case (Ascii.eqb c _); intros [= _ <-] || intros [= _]; eauto.
  - apply step_name_error.
  - case (Ascii.eqb c _); intros [= _]; discriminate.
  - intros [= _]; discriminate.
  - repeat (case (Ascii.eqb c _)); intros [= _ <-] || intros [= _]; eauto.
  - repeat (case (Ascii.eqb c _)); try (intros [= _]; discriminate).
    destruct open as [|[|open']]; intros [= _]; discriminate.
Qed.

Lemma finish_error st segs e :
  finish st = (segs, Some e) -> exists m, e = ValueError m.
Proof.
  destruct st as [[|? ?]| | | | | | |]; cbn; intros [= _ <-] || intros [= _]; eauto.
Qed.

Lemma scan_error s : forall st segs e,
  scan st s = (segs, Some e) -> exists m, e = ValueError m.
Proof.
  induction s as [|c s IH]; intros st segs e; cbn.
  - apply finish_error.
  - destruct (step st c) as [out [e'|st']] eqn:Hs.
    + intros [= _ ->]. eapply step_error, Hs.
    + destruct (scan st' s) as [segs' err] eqn:Hsc.
      intros [= _ ->]. eapply IH, Hsc.
Qed.

Lemma raised_error {A} what (o : option A) e :
  raised what o = Err e -> format_error e.
Proof. destruct o; cbn; [discriminate|]. intros [= <-]. exact I. Qed.

Lemma lookup_arg_error arg e :
  lookup_arg kwargs arg = Err e -> format_error e.
Proof.
  unfold lookup_arg.
  destruct (positional arg).
  - case (_ <? _)%N; intros [= <-]; exact I.
  - destruct (kwargs !! arg); [discriminate|]. intros [= <-]. exact I.
Qed.

Lemma resolve_error v rest conv e :
  resolve py v rest conv = Err e -> format_error e.
Proof.
  unfold resolve.
  destruct rest, conv; try discriminate;
    (destruct (py_resolve py _ _ _); cbn; [discriminate|]; intros [= <-]; exact I).
Qed.

Lemma resolve_format_error v rest conv fmt spec e :
  resolve py v rest conv = Ok fmt -> fmt spec = Err e -> format_error e.
Proof.
  unfold resolve.
  destruct rest, conv;
    try (destruct (py_resolve py _ _ _); cbn; [|discriminate];
         intros [= <-]; apply raised_error).
  intros [= <-]. destruct spec; [discriminate|]. apply raised_error.
Qed.

Lemma output_markup_error expand f e :
  (forall t e', expand t = Err e' -> format_error e') ->
  output_markup py kwargs expand f = Err e -> format_error e.
Proof.
  intros Hexp. unfold output_markup.
  destruct (split_name (f_name f)) as [arg rest].
  destruct (lookup_arg kwargs arg) as [v|e1] eqn:Hl; cbn;
    [|intros [= <-]; eapply lookup_arg_error, Hl].
  destruct (resolve py v rest (f_conv f)) as [fmt|e2] eqn:Hr; cbn;
    [|intros [= <-]; eapply resolve_error, Hr].
  destruct (needs_expanding (f_spec f)).
  - destruct (expand (f_spec f)) as [spec|e3] eqn:He; cbn;
      [|intros [= <-]; eapply Hexp, He].
    eapply resolve_format_error, Hr.
  - cbn. eapply resolve_format_error, Hr.
Qed.

Lemma render_error markup_out segs : forall e,
  (forall f e', markup_out f = Err e' -> format_error e') ->
  render markup_out segs = Err e -> format_error e.
Proof.
  intros e Hm. revert e.
  induction segs as [|[text|f] segs IH]; intros e; cbn; [discriminate| |].
  - destruct (render markup_out segs) as [out|e1]; cbn; [discriminate|].
    intros [= <-]. now apply IH.
  - destruct (markup_out f) as [here|e1] eqn:Hf; cbn;
      [|intros [= <-]; eapply Hm, Hf].
    destruct (render markup_out segs) as [out|e2]; cbn; [discriminate|].
    intros [= <-]. now apply IH.
Qed.

(** Whatever [str.format] raises is one of its own exceptions. *)
Lemma build_string_error depth : forall template e,
  build_string py kwargs depth template = Err e -> format_error e.
Proof.
  induction depth as [|depth IH]; intros template e; cbn.
  - intros [= <-]. exact I.
  - destruct (markup template) as [segs err] eqn:Hm.
    destruct (render _ segs) as [out|e1] eqn:Hr; cbn.
    + destruct err as [e2|]; [|discriminate]. intros [= <-].
      destruct (scan_error _ _ _ _ Hm) as [m ->]. exact I.
    + intros [= <-]. eapply render_error, Hr.
      intros f e'. apply output_markup_error, IH.
Qed.

Lemma build_string_S depth template :
  build_string py kwargs (S depth) template =
  let '(segs, err) := markup template in
  out ← render (output_markup py kwargs (build_string py kwargs depth)) segs;
  match err with
  | Some e => Err e
  | None => Ok out
  end.
Proof. reflexivity. Qed.

(** A field that cannot be written stops the whole rendering. *)
Lemma render_fails markup_out segs f :
  f ∈ fields segs -> (exists e, markup_out f = Err e) ->
  exists e, render markup_out segs = Err e.
Proof.
  intros Hin [e He].
  induction segs as [|[text|g] segs IH]; cbn in *.
  - inversion Hin.
  - destruct (IH Hin) as [e' ->]. cbn. eauto.
  - apply elem_of_cons in Hin as [<-|Hin].
    + rewrite He. cbn. eauto.
    + destruct (markup_out g); cbn; [|eauto].
      destruct (IH Hin) as [e' ->]. cbn. eauto.
Qed.
End FormatFacts.

(** ** Unfolding the pipelines *)

Ltac run :=
  unfold except, mbind, M_bind, mret, M_ret, lift, raise, record; cbn.

Lemma get_answer_eq env question template_path w :
  Rag.get_answer env question template_path w =
  match Rag.create_chain env template_path question with
  | Err e => (Err e, w)
  | Ok c =>
      match Rag.chain_invoke env c question w with
      | (Ok (answer, docs), w') =>
          (Ok ({[ "answer" := VStr answer; "context" := VDocs docs ]} : gmap string pyval), w')
      | (Err e, w') => (Err e, w')
      end
  end.
Proof.
  unfold Rag.get_answer. run.
  destruct (Rag.create_chain env template_path question) as [c|e]; [|reflexivity].
  destruct (Rag.chain_invoke env c question w) as [[[answer docs]|e] w']; reflexivity.
Qed.

Lemma create_chain_missing env template_path question :
  env_files env !! template_path = None ->
  Rag.create_chain env template_path question =
  Err (FileNotFoundError ("Template file not found at " +:+ template_path)).
Proof.
  intros Hnone. unfold Rag.create_chain, Rag.load_prompt_template.
  now rewrite Hnone.
Qed.

(** Every chain that [create_chain] builds retrieves from the default
    collection and asks for four results. *)
Lemma create_chain_retriever env template_path question c :
  Rag.create_chain env template_path question = Ok c ->
  Rag.chain_retriever c = Rag.mkRetriever Qdrant.vector_store 4 [("top_k", 4)].
Proof.
  unfold Rag.create_chain.
  destruct (Rag.load_prompt_template env template_path question) as [t|e]; [|discriminate].
  cbn. destruct (ChatPromptTemplate.from_template t) as [p|e]; [|discriminate].
  cbn. now intros [= <-].
Qed.

Lemma upload_documents_eq env url name w :
  Qdrant.upload_documents env url name w =
  let w1 := mkWorld (store w) (calls w ++ [CallFetch url]) in
  match env_load_and_split env url with
  | None => (Err (FetchError url), w1)
  | Some documents =>
      QdrantClient.add_documents env name (Qdrant.tag url <$> documents) w1
  end.
Proof.
  unfold Qdrant.upload_documents, WebBaseLoader.load_and_split. run.
  destruct (env_load_and_split env url) as [documents|]; [|reflexivity].
  unfold QdrantClient.add_documents. cbn.
  destruct (store w !! name); [|reflexivity].
  destruct (QdrantClient.first_unembedded env _); reflexivity.
Qed.

(** When the provider fails on no chunk, every chunk is inserted. *)
Lemma embedded_prefix_all env documents :
  QdrantClient.first_unembedded env documents = None ->
  QdrantClient.embedded_prefix env documents = documents.
Proof.
  induction documents as [|d documents IH]; cbn; [reflexivity|].
  destruct (env_embeds env (page_content d)); [|discriminate].
  intros Hrest. now rewrite IH.
Qed.

(** What a retrieval that did not fail delivers. *)
Lemma env_nearest_rank env query chunks :
  env_embeds env query = true ->
  env_store_answers env query = true ->
  env_nearest env query chunks = env_rank env query chunks.
Proof. intros He Hs. unfold env_nearest. now rewrite He, Hs. Qed.

(** A retrieval that delivers a hit did not fail. *)
Lemma env_nearest_hit env query chunks k d hits :
  take k (env_nearest env query chunks) = d :: hits ->
  env_embeds env query = true /\ env_store_answers env query = true.
Proof.
  unfold env_nearest.
  destruct (env_embeds env query), (env_store_answers env query); cbn;
    rewrite ?take_nil; try discriminate; auto.
Qed.

Lemma create_collection_eq name size w :
  Qdrant.create_collection name size w = QdrantClient.create_collection name size COSINE w.
Proof.
  unfold Qdrant.create_collection, except.
  destruct (QdrantClient.create_collection name size COSINE w) as [[[]|e] w']; reflexivity.
Qed.

(** A fresh name is allocated with the requested size and cosine distance. *)
Lemma create_collection_fresh name size w :
  store w !! name = None ->
  Qdrant.create_collection name size w =
  (Ok tt, mkWorld (<[name := mkCollection size COSINE []]> (store w))
                  (calls w ++ [CallCreateCollection name size COSINE])).
Proof.
  intros Hfresh. rewrite create_collection_eq.
  unfold QdrantClient.create_collection. now rewrite Hfresh.
Qed.

Lemma template_missing_absent env path :
  env_files env !! path = None -> App.template_missing env (Some path) = true.
Proof.
  intros Hnone. unfold App.template_missing.
  destruct path; [reflexivity|]. now apply bool_decide_eq_true.
Qed.

(** ** The properties of the specification *)

(** C2: for a template path that does not exist, [get_answer] raises
    the template-not-found error and leaves the world as it found it:
    nothing was sent to the vector store or to the model.  The
    endpoint's own guard answers 400 in the same way. *)
Theorem C2_missing_template_has_no_effects env question path w :
  env_files env !! path = None ->
  Rag.get_answer env question path w =
    (Err (FileNotFoundError ("Template file not found at " +:+ path)), w)
  /\ App.chatbot_endpoint env (App.mkQueryRequest question (Some path)) w =
    (Err (HTTPException 400 ("Template file not found at path: " +:+ path)), w).
Proof.
  intros Hnone. split.
  - rewrite get_answer_eq, create_chain_missing by assumption. reflexivity.
  - unfold App.chatbot_endpoint, App.chatbot_endpoint_with.
    cbn [App.template_path App.question].
    rewrite template_missing_absent by assumption. reflexivity.
Qed.

Lemma C2_witness :
  Rag.get_answer (Scenario.env Scenario.escaped_template) Scenario.question
                 "missing.txt" Scenario.wiki_world =
    (Err (FileNotFoundError "Template file not found at missing.txt"), Scenario.wiki_world)
  /\ App.chatbot_endpoint (Scenario.env Scenario.escaped_template)
       (App.mkQueryRequest Scenario.question (Some "missing.txt")) Scenario.wiki_world =
    (Err (HTTPException 400 "Template file not found at path: missing.txt"),
     Scenario.wiki_world).
Proof.
  apply (C2_missing_template_has_no_effects
           (Scenario.env Scenario.escaped_template) Scenario.question "missing.txt").
  reflexivity.
Defined.

(** C6: after a successful [upload_documents url name], the chunks
    handed to the store and appended to the collection all carry
    [source_url = url], and a store in which every chunk names its
    source is still such a store. *)
Theorem C6_inserted_chunks_carry_source_url env url name w w' :
  Qdrant.upload_documents env url name w = (Ok tt, w') ->
  exists c documents,
    store w !! name = Some c
    /\ calls w' = calls w ++ [CallFetch url; CallAddDocuments name documents]
    /\ store w' = <[name := mkCollection (vector_size c) (distance c)
                                         (points c ++ documents)]> (store w)
    /\ Forall (tagged_with url) documents
    /\ (every_chunk_tagged w -> every_chunk_tagged w').
Proof.
  rewrite upload_documents_eq. cbn.
  destruct (env_load_and_split env url) as [loaded|]; [|discriminate].
  unfold QdrantClient.add_documents. cbn.
  destruct (store w !! name) as [c|] eqn:Hc; [|discriminate].
  destruct (QdrantClient.first_unembedded env _) eqn:Hall; [discriminate|].
  rewrite (embedded_prefix_all _ _ Hall).
  intros [= <-]. exists c, (Qdrant.tag url <$> loaded).
  assert (Forall (tagged_with url) (Qdrant.tag url <$> loaded)) as Htag.
  { apply Forall_fmap, Forall_forall. intros d _.
    unfold tagged_with, Qdrant.tag, compose. cbn. apply lookup_insert_eq. }
  repeat split; cbn; try done.
  - now rewrite <- app_assoc.
  - intros Hinv name' c'. cbn.
    destruct (decide (name = name')) as [<-|Hne].
    + rewrite lookup_insert_eq. intros [= <-]. cbn.
      apply Forall_app. split; [now apply (Hinv name)|].
      eapply Forall_impl; [exact Htag|].
      intros d Hd. unfold carries_source. rewrite Hd. eauto.
    + rewrite lookup_insert_ne by assumption. apply Hinv.
Qed.

Lemma C6_witness :
  exists c documents,
    store Scenario.wiki_world !! "Wiki_2" = Some c
    /\ calls (Qdrant.upload_documents (Scenario.env "") Scenario.page_url "Wiki_2"
                Scenario.wiki_world).2
       = calls Scenario.wiki_world
         ++ [CallFetch Scenario.page_url; CallAddDocuments "Wiki_2" documents]
    /\ store (Qdrant.upload_documents (Scenario.env "") Scenario.page_url "Wiki_2"
                Scenario.wiki_world).2
       = <["Wiki_2" := mkCollection (vector_size c) (distance c) (points c ++ documents)]>
           (store Scenario.wiki_world)
    /\ Forall (tagged_with Scenario.page_url) documents
    /\ (every_chunk_tagged Scenario.wiki_world ->
        every_chunk_tagged (Qdrant.upload_documents (Scenario.env "") Scenario.page_url
                              "Wiki_2" Scenario.wiki_world).2).
Proof.
  apply (C6_inserted_chunks_carry_source_url (Scenario.env "") Scenario.page_url "Wiki_2"
           Scenario.wiki_world).
  vm_compute. reflexivity.
Defined.



(** C9: when the request for the page raises, so that there is no
    response at all, [upload_documents] raises the fetch error; the
    store is unchanged and nothing was handed to it. *)
Theorem C9_fetch_failure_inserts_nothing env url name w :
  env_fetch env url = None ->
  Qdrant.upload_documents env url name w =
    (Err (FetchError url), mkWorld (store w) (calls w ++ [CallFetch url]))
  /\ store (Qdrant.upload_documents env url name w).2 = store w
  /\ inserted (calls (Qdrant.upload_documents env url name w).2) = inserted (calls w)
  /\ chunk_count (Qdrant.upload_documents env url name w).2 name = chunk_count w name.
Proof.
  intros Hfail. rewrite upload_documents_eq. cbn.
  unfold env_load_and_split. rewrite Hfail. cbn.
  repeat split.
  unfold inserted. rewrite omap_app. cbn. apply app_nil_r.
Qed.

Lemma C9_witness :
  Qdrant.upload_documents (Scenario.env "") "https://example.com/missing" "c1"
      Scenario.empty_world =
    (Err (FetchError "https://example.com/missing"),
     mkWorld (store Scenario.empty_world)
             (calls Scenario.empty_world ++ [CallFetch "https://example.com/missing"]))
  /\ store (Qdrant.upload_documents (Scenario.env "") "https://example.com/missing" "c1"
              Scenario.empty_world).2 = store Scenario.empty_world
  /\ inserted (calls (Qdrant.upload_documents (Scenario.env "")
                        "https://example.com/missing" "c1" Scenario.empty_world).2)
     = inserted (calls Scenario.empty_world)
  /\ chunk_count (Qdrant.upload_documents (Scenario.env "") "https://example.com/missing"
                    "c1" Scenario.empty_world).2 "c1"
     = chunk_count Scenario.empty_world "c1".
Proof.
  apply (C9_fetch_failure_inserts_nothing (Scenario.env "")
           "https://example.com/missing" "c1" Scenario.empty_world).
  reflexivity.
Defined.

(** C9, as stated: an address that is answered 404 is a failed fetch,
    yet the loader does not look at the status; the error page is
    split, tagged and inserted, and the call succeeds. *)
Lemma C9_counterexample :
  fetch_fails (Scenario.env "") Scenario.gone_url
  /\ (Qdrant.upload_documents (Scenario.env "") Scenario.gone_url "c1"
        Scenario.c1_world).1 = Ok tt
  /\ chunk_count Scenario.c1_world "c1" = 0
  /\ chunk_count (Qdrant.upload_documents (Scenario.env "") Scenario.gone_url "c1"
                    Scenario.c1_world).2 "c1" = 1
  /\ points <$> (store (Qdrant.upload_documents (Scenario.env "") Scenario.gone_url "c1"
                          Scenario.c1_world).2 !! "c1")
     = Some [mkDocument "Not Found" {[ "source_url" := Scenario.gone_url ]}]
  /\ ~ ((Qdrant.upload_documents (Scenario.env "") Scenario.gone_url "c1"
           Scenario.c1_world).1 = Err (FetchError Scenario.gone_url)
        /\ chunk_count (Qdrant.upload_documents (Scenario.env "") Scenario.gone_url "c1"
                          Scenario.c1_world).2 "c1"
           = chunk_count Scenario.c1_world "c1").
Proof.
  split; [unfold fetch_fails; cbn; left; lia|].
  split; [vm_compute; reflexivity|].
  split; [vm_compute; reflexivity|].
  split; [vm_compute; reflexivity|].
  split; [vm_compute; reflexivity|].
  intros [Hraised _]. vm_compute in Hraised. discriminate.
Qed.

Lemma chain_invoke_eq env c question w :
  Rag.chain_invoke env c question w =
  let r := Rag.chain_retriever c in
  let name := Qdrant.collection_name (Rag.r_store r) in
  let w1 := mkWorld (store w) (calls w ++ [CallSearch name question (Rag.r_k r)]) in
  if env_embeds env question then
    if env_store_answers env question then
      match store w !! name with
      | None => (Err (CollectionNotFound name), w1)
      | Some col =>
          let docs := take (Rag.r_k r) (env_nearest env question (points col)) in
          match ChatPromptTemplate.invoke env (Rag.chain_prompt c)
                  {[ "context" := ChatPromptTemplate.docs_str env docs;
                     "question" := question ]} with
          | Err e => (Err e, w1)
          | Ok prompt =>
              let w2 := mkWorld (store w) (calls w1 ++ [CallLLM prompt]) in
              match env_llm env prompt with
              | Some content => (Ok (content, docs), w2)
              | None => (Err (LLMProviderError "completion failed"), w2)
              end
          end
      end
    else (Err (StoreUnavailable name), w1)
  else (Err (EmbeddingProviderError question), w1).
Proof.
  unfold Rag.chain_invoke, Rag.retriever_invoke, QdrantClient.search, ChatOpenAI.invoke.
  run.
  destruct (env_embeds env question) eqn:Hembeds; [|reflexivity].
  destruct (env_store_answers env question) eqn:Hanswers; [|reflexivity].
  destruct (store w !! _) as [col|]; [|reflexivity].
  rewrite (env_nearest_rank _ _ _ Hembeds Hanswers).
  destruct (ChatPromptTemplate.invoke _ _ _) as [prompt|e]; [|reflexivity].
  destruct (env_llm env prompt); reflexivity.
Qed.

(** C8: whatever the question and the template path, the calls that
    [get_answer] adds contain at most one search; it is addressed to
    the default collection and asks for four results, and a run that
    returns an answer has made exactly that search.  The request type
    of the endpoint has no field through which [k] could be given. *)
Theorem C8_retrieval_requests_top_4 env question path w :
  exists new,
    calls (Rag.get_answer env question path w).2 = calls w ++ new
    /\ (searches new = [] \/ searches new = [(Qdrant.COLLECTION_NAME, question, 4)])
    /\ match (Rag.get_answer env question path w).1 with
       | Ok _ => searches new = [(Qdrant.COLLECTION_NAME, question, 4)]
       | Err _ => True
       end.
Proof.
  rewrite get_answer_eq.
  destruct (Rag.create_chain env path question) as [c|e] eqn:Hc.
  - rewrite chain_invoke_eq, (create_chain_retriever _ _ _ _ Hc). cbn.
    destruct (env_embeds env question);
      [|exists [CallSearch Qdrant.COLLECTION_NAME question 4]; cbn; auto].
    destruct (env_store_answers env question);
      [|exists [CallSearch Qdrant.COLLECTION_NAME question 4]; cbn; auto].
    destruct (store w !! Qdrant.COLLECTION_NAME) as [col|].
    + destruct (ChatPromptTemplate.invoke _ _ _) as [prompt|e].
      * exists [CallSearch Qdrant.COLLECTION_NAME question 4; CallLLM prompt].
        destruct (env_llm env prompt); cbn; rewrite <- app_assoc; auto.
      * exists [CallSearch Qdrant.COLLECTION_NAME question 4]. cbn. auto.
    + exists [CallSearch Qdrant.COLLECTION_NAME question 4]. cbn. auto.
  - exists []. cbn. rewrite app_nil_r. auto.
Qed.

(** ** Text occurrence *)

Lemma append_assoc (a b c : string) : (a +:+ b) +:+ c = a +:+ (b +:+ c).
Proof.
  induction a as [|x a IH]; [reflexivity|].
  change (String x ((a +:+ b) +:+ c) = String x (a +:+ b +:+ c)). now f_equal.
Qed.

Lemma occurs_in_wrap s t pre post :
  occurs_in s t -> occurs_in s (pre +:+ t +:+ post).
Proof.
  intros (a & b & ->). exists (pre +:+ a), (b +:+ post).
  now rewrite !append_assoc.
Qed.

(** A complete run on the scenario with the protected context slot:
    one search, one completion, and the answer dictionary. *)
Example scenario_run :
  Rag.get_answer (Scenario.env Scenario.escaped_template) Scenario.question
                 Scenario.template_path Scenario.wiki_world =
  (Ok {[ "answer" := VStr "4"; "context" := VDocs [Scenario.chunk] ]},
   mkWorld (store Scenario.wiki_world)
     [CallSearch "Wiki_2" "What is 2+2?" 4;
      CallLLM ("Context: [Document(page_content='Basic arithmetic: 2+2=4.')]" +:+ nl
               +:+ "Question: What is 2+2?" +:+ nl +:+ "Answer:")]).
Proof. vm_compute. reflexivity. Qed.

(** With the context slot protected, the first stage fills in the
    question and leaves the slot for the chain. *)
Lemma escaped_template_loads env path :
  env_files env !! path = Some Scenario.escaped_template ->
  Rag.create_chain env path Scenario.question =
  Ok (Rag.mkChain
        (Rag.mkRetriever Qdrant.vector_store 4 [("top_k", 4)])
        (ChatPromptTemplate.mk
           ("Context: {context}" +:+ nl +:+ "Question: What is 2+2?" +:+ nl +:+ "Answer:")
           ["context"])).
Proof.
  intros Hfile. unfold Rag.create_chain, Rag.load_prompt_template.
  rewrite Hfile. vm_compute. reflexivity.
Qed.

(** C1: with the scenario's template written so that the context slot
    survives [str.format] (doubled braces), its question and a
    retrieval that returns the single scenario chunk, the pipeline
    sends exactly one prompt to the model; that prompt contains the
    question verbatim, and contains the chunk text verbatim as soon as
    the printed form of the chunk does. *)
Theorem C1_prompt_contains_question_and_context env w path col doc :
  env_files env !! path = Some Scenario.escaped_template ->
  store w !! Qdrant.COLLECTION_NAME = Some col ->
  take 4 (env_nearest env Scenario.question (points col)) = [doc] ->
  page_content doc = Scenario.context_text ->
  occurs_in (page_content doc) (env_doc_repr env doc) ->
  exists prompt,
    calls (Rag.get_answer env Scenario.question path w).2 =
      calls w ++ [CallSearch Qdrant.COLLECTION_NAME Scenario.question 4; CallLLM prompt]
    /\ occurs_in Scenario.question prompt
    /\ occurs_in Scenario.context_text prompt.
Proof.
  intros Hfile Hcol Htake Htext Hrepr.
  rewrite get_answer_eq, (escaped_template_loads _ _ Hfile), chain_invoke_eq.
  cbn [Rag.chain_retriever Rag.chain_prompt Rag.r_store Rag.r_k Qdrant.collection_name
       Qdrant.vector_store].
  destruct (env_nearest_hit _ _ _ _ _ _ Htake) as [-> ->].
  rewrite Hcol. cbv zeta. rewrite Htake.
  assert (ChatPromptTemplate.invoke env
            (ChatPromptTemplate.mk
               ("Context: {context}" +:+ nl +:+ "Question: What is 2+2?" +:+ nl
                +:+ "Answer:") ["context"])
            {[ "context" := ChatPromptTemplate.docs_str env [doc];
               "question" := Scenario.question ]}
          = Ok ("Context: " +:+ ChatPromptTemplate.docs_str env [doc] +:+ nl
                +:+ "Question: " +:+ Scenario.question +:+ nl +:+ "Answer:")) as ->.
  { vm_compute. reflexivity. }
  eexists. split; [|split].
  - destruct (env_llm env _); cbn; rewrite <- app_assoc; reflexivity.
  - exists ("Context: " +:+ ChatPromptTemplate.docs_str env [doc] +:+ nl +:+ "Question: "),
           (nl +:+ "Answer:").
    now rewrite !append_assoc.
  - rewrite <- Htext. apply occurs_in_wrap.
    change (ChatPromptTemplate.docs_str env [doc])
      with ("[" +:+ env_doc_repr env doc +:+ "]").
    now apply occurs_in_wrap.
Qed.

Lemma C1_witness :
  exists prompt,
    calls (Rag.get_answer (Scenario.env Scenario.escaped_template) Scenario.question
             Scenario.template_path Scenario.wiki_world).2 =
      calls Scenario.wiki_world
      ++ [CallSearch Qdrant.COLLECTION_NAME Scenario.question 4; CallLLM prompt]
    /\ occurs_in Scenario.question prompt
    /\ occurs_in Scenario.context_text prompt.
Proof.
  apply (C1_prompt_contains_question_and_context
           (Scenario.env Scenario.escaped_template) Scenario.wiki_world
           Scenario.template_path (mkCollection 1536 COSINE [Scenario.chunk])
           Scenario.chunk).
  - reflexivity.
  - reflexivity.
  - reflexivity.
  - reflexivity.
  - exists "Document(page_content='", "')". reflexivity.
Defined.

(** C1, as stated: on the scenario's own template the single-brace
    context slot is a replacement field for [str.format], which is
    given [question] only.  Loading the template raises [KeyError],
    [get_answer] raises it on, and no prompt reaches the model. *)
Lemma C1_counterexample :
  Rag.load_prompt_template (Scenario.env Scenario.template) Scenario.template_path
    Scenario.question = Err (KeyError "context")
  /\ Rag.get_answer (Scenario.env Scenario.template) Scenario.question
       Scenario.template_path Scenario.wiki_world
     = (Err (KeyError "context"), Scenario.wiki_world)
  /\ ~ (exists prompt,
          prompt ∈ llm_prompts
            (calls (Rag.get_answer (Scenario.env Scenario.template) Scenario.question
                      Scenario.template_path Scenario.wiki_world).2)
          /\ occurs_in Scenario.question prompt
          /\ occurs_in Scenario.context_text prompt).
Proof.
  split; [vm_compute; reflexivity|].
  split; [vm_compute; reflexivity|].
  intros (prompt & Hin & _). vm_compute in Hin. inversion Hin.
Qed.

(** The scenario in general: a fresh name is created once, and the
    identical second call is refused. *)
Lemma create_collection_twice name size w :
  store w !! name = None ->
  (Qdrant.create_collection name size w).1 = Ok tt
  /\ (Qdrant.create_collection name size (Qdrant.create_collection name size w).2).1
     = Err (CollectionAlreadyExists name).
Proof.
  intros Hfresh. rewrite (create_collection_fresh _ _ _ Hfresh).
  split; [reflexivity|].
  rewrite create_collection_eq. unfold QdrantClient.create_collection. cbn.
  now rewrite lookup_insert_eq.
Qed.

(** ** Ingestion twice *)

Lemma upload_documents_existing env url name w c docs :
  store w !! name = Some c ->
  env_load_and_split env url = Some docs ->
  (Qdrant.upload_documents env url name w).1 = Ok tt ->
  Qdrant.upload_documents env url name w =
  (Ok tt,
   mkWorld (<[name := mkCollection (vector_size c) (distance c)
                                   (points c ++ (Qdrant.tag url <$> docs))]> (store w))
           (calls w ++ [CallFetch url; CallAddDocuments name (Qdrant.tag url <$> docs)])).
Proof.
  intros Hc Hdocs. rewrite upload_documents_eq. cbn. rewrite Hdocs.
  unfold QdrantClient.add_documents. cbn. rewrite Hc.
  destruct (QdrantClient.first_unembedded env _) eqn:Hall; [discriminate|].
  intros _. now rewrite (embedded_prefix_all _ _ Hall), <- app_assoc.
Qed.


(** An ingestion succeeds when the collection is there, the page
    loads and the embedding provider answers for every chunk. *)
Lemma upload_documents_succeeds env url name w c docs :
  store w !! name = Some c ->
  env_load_and_split env url = Some docs ->
  Forall (fun d => env_embeds env (page_content d) = true) docs ->
  (Qdrant.upload_documents env url name w).1 = Ok tt.
Proof.
  intros Hc Hdocs Hembeds. rewrite upload_documents_eq. cbn. rewrite Hdocs.
  unfold QdrantClient.add_documents. cbn. rewrite Hc.
  assert (QdrantClient.first_unembedded env (Qdrant.tag url <$> docs) = None) as ->;
    [|reflexivity].
  clear Hdocs. induction Hembeds as [|d docs Hd _ IH]; [reflexivity|].
  cbn [fmap list_fmap QdrantClient.first_unembedded].
  change (page_content (Qdrant.tag url d)) with (page_content d).
  rewrite Hd. exact IH.
Qed.





(** ** The response of [/api/rag] *)

(** The repository's own pipeline always returns both keys, with a
    text answer. *)
Lemma get_answer_dictionary env question path w d w' :
  Rag.get_answer env question path w = (Ok d, w') ->
  (exists answer docs, d = {[ "answer" := VStr answer; "context" := VDocs docs ]})
  /\ answer_is_text d.
Proof.
  rewrite get_answer_eq.
  destruct (Rag.create_chain env path question) as [c|e]; [|discriminate].
  destruct (Rag.chain_invoke env c question w) as [[[answer docs]|e] w1];
    [|discriminate].
  intros [= <- <-]. split; [eauto|].
  unfold answer_is_text. now rewrite lookup_insert_eq.
Qed.

(** The only way the tail of the endpoint fails: an [answer] entry that
    is present and is not text is rejected by [QueryResponse]. *)
Lemma chatbot_endpoint_rejects_non_text get_answer env payload w d w' v :
  App.template_missing env (App.template_path payload) = false ->
  get_answer (App.question payload) (default "" (App.template_path payload)) w = (Ok d, w') ->
  d !! "answer" = Some v -> (forall s, v <> VStr s) ->
  App.chatbot_endpoint_with get_answer env payload w =
  (Err (HTTPException 500 "An unexpected error occurred while processing your request."),
   w').
Proof.
  intros Hpath Hrun Hv Hnot.
  unfold App.chatbot_endpoint_with, except, mbind, M_bind, mret, M_ret, lift.
  rewrite Hpath, Hrun, Hv. cbn.
  destruct v; [now destruct (Hnot s)| |]; reflexivity.
Qed.

(** C10: once the template check has passed and the pipeline has
    returned a dictionary, the endpoint answers with the [answer] and
    [context] entries read by [dict.get] with the empty string as
    default: a missing key never raises, it yields the empty string in
    that field of a normal response. *)
Theorem C10_missing_keys_default_to_empty get_answer env payload w d w' :
  App.template_missing env (App.template_path payload) = false ->
  get_answer (App.question payload) (default "" (App.template_path payload)) w = (Ok d, w') ->
  answer_is_text d ->
  exists response,
    App.chatbot_endpoint_with get_answer env payload w = (Ok response, w')
    /\ VStr (App.answer response) = default (VStr "") (d !! "answer")
    /\ App.context response = default (VStr "") (d !! "context")
    /\ (d !! "answer" = None -> App.answer response = "")
    /\ (d !! "context" = None -> App.context response = VStr "").
Proof.
  intros Hpath Hrun Htext.
  unfold App.chatbot_endpoint_with, except, mbind, M_bind, mret, M_ret, lift.
  rewrite Hpath, Hrun. unfold answer_is_text in Htext.
  destruct (d !! "answer") as [[s| |]|] eqn:Ha; try contradiction; cbn.
  - eexists. split; [reflexivity|]. cbn. repeat split; try discriminate.
    now intros ->.
  - eexists. split; [reflexivity|]. cbn. repeat split.
    now intros ->.
Qed.

Lemma C10_witness :
  exists response,
    App.chatbot_endpoint_with Scenario.silent_pipeline
      (Scenario.env Scenario.escaped_template)
      (App.mkQueryRequest Scenario.question (Some Scenario.template_path))
      Scenario.wiki_world = (Ok response, Scenario.wiki_world)
    /\ VStr (App.answer response) = default (VStr "") ((∅ : gmap string pyval) !! "answer")
    /\ App.context response = default (VStr "") ((∅ : gmap string pyval) !! "context")
    /\ ((∅ : gmap string pyval) !! "answer" = None -> App.answer response = "")
    /\ ((∅ : gmap string pyval) !! "context" = None -> App.context response = VStr "").
Proof.
  apply (C10_missing_keys_default_to_empty Scenario.silent_pipeline
           (Scenario.env Scenario.escaped_template)
           (App.mkQueryRequest Scenario.question (Some Scenario.template_path))
           Scenario.wiki_world ∅ Scenario.wiki_world).
  - reflexivity.
  - reflexivity.
  - vm_compute. exact I.
Defined.

(** ** Unknown placeholders *)

Lemma lookup_arg_unknown question arg :
  arg <> "question" ->
  exists e, PyFormat.lookup_arg ({[ "question" := question ]} : gmap string string) arg
            = Err e.
Proof.
  intros Hne. unfold PyFormat.lookup_arg.
  destruct (PyFormat.positional arg).
  - case (_ <? _)%N; eauto.
  - rewrite lookup_singleton_ne by congruence. eauto.
Qed.

(** C3: the file exists and its text has a replacement field whose
    argument is not [question]; then [load_prompt_template] returns no
    prompt but raises, and what it raises is one of [str.format]'s
    exceptions, not the missing-file error. *)
Theorem C3_unknown_placeholder_fails env path template question :
  env_files env !! path = Some template ->
  references_unknown template ->
  exists e, Rag.load_prompt_template env path question = Err e /\ format_error e.
Proof.
  intros Hfile (f & Hin & Hname).
  unfold Rag.load_prompt_template. rewrite Hfile.
  assert (exists e, PyFormat.format (env_py env) {[ "question" := question ]} template
                    = Err e) as [e He].
  { unfold PyFormat.format. rewrite build_string_S.
    destruct (PyFormat.markup template) as [segs err]. cbn [fst] in Hin.
    destruct (render_fails
                (PyFormat.output_markup (env_py env) {[ "question" := question ]}
                   (PyFormat.build_string (env_py env) {[ "question" := question ]} 1))
                segs f Hin) as [e ->]; [|cbn; eauto].
    unfold PyFormat.output_markup, PyFormat.arg_name in *.
    destruct (PyFormat.split_name (PyFormat.f_name f)) as [arg rest]. cbn [fst] in Hname.
    destruct (lookup_arg_unknown question arg Hname) as [e ->]. cbn. eauto. }
  exists e. split; [exact He|].
  eapply build_string_error, He.
Qed.

(** A template that [str.format] cannot read to its end fails as well. *)
Lemma malformed_template_fails env path template question e0 :
  env_files env !! path = Some template ->
  (PyFormat.markup template).2 = Some e0 ->
  exists e, Rag.load_prompt_template env path question = Err e /\ format_error e.
Proof.
  intros Hfile Hbad.
  unfold Rag.load_prompt_template. rewrite Hfile.
  destruct (PyFormat.format (env_py env) {[ "question" := question ]} template)
    as [out|e] eqn:He.
  - unfold PyFormat.format in He. rewrite build_string_S in He.
    destruct (PyFormat.markup template) as [segs err]. cbn in Hbad. subst err.
    destruct (PyFormat.render _ segs); discriminate.
  - exists e. split; [reflexivity|]. eapply build_string_error, He.
Qed.

(** The scenario's template is itself such a file: [context] is unknown. *)
Lemma C3_witness :
  exists e,
    Rag.load_prompt_template (Scenario.env Scenario.template) Scenario.template_path
      Scenario.question = Err e
    /\ format_error e.
Proof.
  apply (C3_unknown_placeholder_fails (Scenario.env Scenario.template)
           Scenario.template_path Scenario.template Scenario.question).
  - reflexivity.
  - exists (PyFormat.Field "context" None ""). split.
    + vm_compute. constructor.
    + vm_compute. discriminate.
Defined.

(** * Further properties of the pipelines *)

(** ** Reading literal text, escapes and the two slots *)

Lemma append_nil_r (s : string) : s +:+ EmptyString = s.
Proof.
  induction s as [|c s IH]; [reflexivity|].
  change (String c (s +:+ EmptyString) = String c s). now f_equal.
Qed.

Lemma brace_free_app a b :
  brace_free (a +:+ b) = brace_free a && brace_free b.
Proof.
  induction a as [|c a IH]; [reflexivity|].
  change (brace_free (String c (a +:+ b)) = brace_free (String c a) && brace_free b).
  cbn [brace_free]. rewrite IH. now rewrite andb_assoc.
Qed.

Lemma scan_cons st c s :
  PyFormat.scan st (String c s) =
  match PyFormat.step st c with
  | (out, inl e) => (out, Some e)
  | (out, inr st') =>
      let '(segs, err) := PyFormat.scan st' s in (out ++ segs, err)
  end.
Proof. reflexivity. Qed.

(** Brace-free text only lengthens the pending literal. *)
Lemma scan_literal p : forall lit rest,
  brace_free p = true ->
  PyFormat.scan (PyFormat.SLit lit) (p +:+ rest)
  = PyFormat.scan (PyFormat.SLit (lit +:+ p)) rest.
Proof.
  induction p as [|c p IH]; intros lit rest Hfree.
  - rewrite append_nil_r. reflexivity.
  - change (String c p +:+ rest) with (String c (p +:+ rest)).
    cbn [brace_free] in Hfree.
    apply andb_prop in Hfree as [Hc Hp]. apply andb_prop in Hc as [Ho Hcl].
    apply negb_true_iff in Ho, Hcl.
    rewrite scan_cons. cbn [PyFormat.step]. rewrite Ho, Hcl.
    rewrite (IH _ _ Hp).
    replace (PyFormat.snoc lit c +:+ p) with (lit +:+ String c p)
      by (unfold PyFormat.snoc; now rewrite append_assoc).
    now destruct (PyFormat.scan _ rest).
Qed.

Lemma scan_open_escape lit rest segs err :
  PyFormat.scan (PyFormat.SLit EmptyString) rest = (segs, err) ->
  PyFormat.scan (PyFormat.SLit lit) ("{{" +:+ rest)
  = (PyFormat.Lit (lit +:+ "{") :: segs, err).
Proof.
  intros Hrest. change ("{{" +:+ rest) with (String "{" (String "{" rest)).
  repeat (rewrite scan_cons; cbn [PyFormat.step Ascii.eqb Bool.eqb]).
  now rewrite Hrest.
Qed.

Lemma scan_close_escape lit rest segs err :
  PyFormat.scan (PyFormat.SLit EmptyString) rest = (segs, err) ->
  PyFormat.scan (PyFormat.SLit lit) ("}}" +:+ rest)
  = (PyFormat.Lit (lit +:+ "}") :: segs, err).
Proof.
  intros Hrest. change ("}}" +:+ rest) with (String "}" (String "}" rest)).
  repeat (rewrite scan_cons; cbn [PyFormat.step Ascii.eqb Bool.eqb]).
  now rewrite Hrest.
Qed.

Lemma scan_question_slot lit rest segs err :
  PyFormat.scan (PyFormat.SLit EmptyString) rest = (segs, err) ->
  PyFormat.scan (PyFormat.SLit lit) ("{question}" +:+ rest)
  = (PyFormat.Lit lit :: PyFormat.Fld (PyFormat.Field "question" None EmptyString) :: segs,
     err).
Proof.
  intros Hrest.
  change ("{question}" +:+ rest)
    with (String "{" (String "q" (String "u" (String "e" (String "s" (String "t"
            (String "i" (String "o" (String "n" (String "}" rest)))))))))).
  repeat (rewrite scan_cons;
          cbn [PyFormat.step PyFormat.step_name Ascii.eqb Bool.eqb]).
  now rewrite Hrest.
Qed.

Lemma scan_context_slot lit rest segs err :
  PyFormat.scan (PyFormat.SLit EmptyString) rest = (segs, err) ->
  PyFormat.scan (PyFormat.SLit lit) ("{context}" +:+ rest)
  = (PyFormat.Lit lit :: PyFormat.Fld (PyFormat.Field "context" None EmptyString) :: segs,
     err).
Proof.
  intros Hrest.
  change ("{context}" +:+ rest)
    with (String "{" (String "c" (String "o" (String "n" (String "t" (String "e"
            (String "x" (String "t" (String "}" rest))))))))).
  repeat (rewrite scan_cons;
          cbn [PyFormat.step PyFormat.step_name Ascii.eqb Bool.eqb]).
  now rewrite Hrest.
Qed.

(** Literal text at the end of a template is read without error and
    written back as it is. *)
Lemma scan_tail post :
  brace_free post = true ->
  exists segs,
    PyFormat.scan (PyFormat.SLit EmptyString) post = (segs, None)
    /\ PyFormat.fields segs = []
    /\ forall markup_out, PyFormat.render markup_out segs = Ok post.
Proof.
  intros Hfree.
  assert (PyFormat.scan (PyFormat.SLit EmptyString) post
          = PyFormat.finish (PyFormat.SLit post)) as ->.
  { etransitivity; [|exact (scan_literal post EmptyString EmptyString Hfree)].
    now rewrite append_nil_r. }
  destruct post as [|c post].
  - exists []. repeat split.
  - exists [PyFormat.Lit (String c post)]. repeat split.
    intros markup_out. cbn. now rewrite append_nil_r.
Qed.

Lemma output_markup_question py question expand :
  PyFormat.output_markup py {[ "question" := question ]} expand
    (PyFormat.Field "question" None EmptyString) = Ok question.
Proof. reflexivity. Qed.

Lemma output_markup_context py docs question expand :
  PyFormat.output_markup py {[ "context" := docs; "question" := question ]} expand
    (PyFormat.Field "context" None EmptyString) = Ok docs.
Proof. reflexivity. Qed.

(** What [str.format] makes of a template with one question slot. *)
Lemma format_question_slot py question pre post :
  brace_free pre = true -> brace_free post = true ->
  PyFormat.format py {[ "question" := question ]} (pre +:+ "{question}" +:+ post)
  = Ok (pre +:+ question +:+ post).
Proof.
  intros Hpre Hpost.
  destruct (scan_tail post Hpost) as (segs & Hscan & _ & Hrender).
  unfold PyFormat.format. rewrite build_string_S. unfold PyFormat.markup.
  rewrite (scan_literal _ _ _ Hpre). change (EmptyString +:+ pre) with pre.
  rewrite (scan_question_slot _ _ _ _ Hscan).
  cbn [PyFormat.render]. rewrite output_markup_question, Hrender. reflexivity.
Qed.

(** X1: a template whose only markup is one [{question}] slot comes
    back with the question put in its place verbatim, whatever the
    question contains: the value is not read as template text. *)
Theorem X_question_slot_is_filled_verbatim env path question pre post :
  brace_free pre = true -> brace_free post = true ->
  env_files env !! path = Some (pre +:+ "{question}" +:+ post) ->
  Rag.load_prompt_template env path question = Ok (pre +:+ question +:+ post).
Proof.
  intros Hpre Hpost Hfile. unfold Rag.load_prompt_template. rewrite Hfile.
  now apply format_question_slot.
Qed.

(** ** The prompt that reaches the model *)

Lemma format_plain py kwargs text :
  brace_free text = true -> PyFormat.format py kwargs text = Ok text.
Proof.
  intros Hfree. destruct (scan_tail text Hfree) as (segs & Hscan & _ & Hrender).
  unfold PyFormat.format. rewrite build_string_S. unfold PyFormat.markup.
  now rewrite Hscan, Hrender.
Qed.

Lemma from_template_plain text :
  brace_free text = true ->
  ChatPromptTemplate.from_template text = Ok (ChatPromptTemplate.mk text []).
Proof.
  intros Hfree. destruct (scan_tail text Hfree) as (segs & Hscan & Hfields & _).
  unfold ChatPromptTemplate.from_template, PyFormat.parse, PyFormat.markup.
  rewrite Hscan. cbn -[PyFormat.fields]. now rewrite Hfields.
Qed.

Lemma format_context_slot py docs question pre rest :
  brace_free pre = true -> brace_free rest = true ->
  PyFormat.format py {[ "context" := docs; "question" := question ]}
    (pre +:+ "{context}" +:+ rest)
  = Ok (pre +:+ docs +:+ rest).
Proof.
  intros Hpre Hrest.
  destruct (scan_tail rest Hrest) as (segs & Hscan & _ & Hrender).
  unfold PyFormat.format. rewrite build_string_S. unfold PyFormat.markup.
  rewrite (scan_literal _ _ _ Hpre). change (EmptyString +:+ pre) with pre.
  rewrite (scan_context_slot _ _ _ _ Hscan).
  cbn [PyFormat.render]. rewrite output_markup_context, Hrender. reflexivity.
Qed.

Lemma from_template_context_slot pre rest :
  brace_free pre = true -> brace_free rest = true ->
  ChatPromptTemplate.from_template (pre +:+ "{context}" +:+ rest)
  = Ok (ChatPromptTemplate.mk (pre +:+ "{context}" +:+ rest) ["context"]).
Proof.
  intros Hpre Hrest.
  destruct (scan_tail rest Hrest) as (segs & Hscan & Hfields & _).
  unfold ChatPromptTemplate.from_template, PyFormat.parse, PyFormat.markup.
  rewrite (scan_literal _ _ _ Hpre). change (EmptyString +:+ pre) with pre.
  rewrite (scan_context_slot _ _ _ _ Hscan). cbn -[PyFormat.fields].
  change (PyFormat.fields (PyFormat.Lit pre :: ?f :: segs))
    with (PyFormat.Field "context" None EmptyString :: PyFormat.fields segs).
  now rewrite Hfields.
Qed.

(** The first stage on a template with a protected context slot and a
    question slot. *)
Lemma format_two_slots py question pre mid post :
  brace_free pre = true -> brace_free mid = true -> brace_free post = true ->
  PyFormat.format py {[ "question" := question ]}
    (pre +:+ "{{context}}" +:+ mid +:+ "{question}" +:+ post)
  = Ok (pre +:+ "{context}" +:+ mid +:+ question +:+ post).
Proof.
  intros Hpre Hmid Hpost.
  destruct (scan_tail post Hpost) as (segs & Hscan & _ & Hrender).
  unfold PyFormat.format. rewrite build_string_S. unfold PyFormat.markup.
  rewrite (scan_literal _ _ _ Hpre). change (EmptyString +:+ pre) with pre.
  change ("{{context}}" +:+ mid +:+ "{question}" +:+ post)
    with ("{{" +:+ "context" +:+ "}}" +:+ mid +:+ "{question}" +:+ post).
  erewrite scan_open_escape; cycle 1.
  { rewrite (scan_literal "context") by reflexivity.
    apply scan_close_escape.
    rewrite (scan_literal _ _ _ Hmid). change (EmptyString +:+ mid) with mid.
    apply scan_question_slot, Hscan. }
  cbn [PyFormat.render]. rewrite output_markup_question, Hrender. cbn.
  rewrite !append_assoc. reflexivity.
Qed.

(** Once the chain is built, the question is embedded, the store
    answers and the default collection is there, the run is one
    search, one prompt and the model's verdict. *)
Lemma get_answer_through env question path w col p prompt :
  Rag.create_chain env path question
  = Ok (Rag.mkChain (Rag.mkRetriever Qdrant.vector_store 4 [("top_k", 4)]) p) ->
  env_embeds env question = true ->
  env_store_answers env question = true ->
  store w !! Qdrant.COLLECTION_NAME = Some col ->
  ChatPromptTemplate.invoke env p
    {[ "context" := ChatPromptTemplate.docs_str env
                      (take 4 (env_nearest env question (points col)));
       "question" := question ]} = Ok prompt ->
  Rag.get_answer env question path w =
  let docs := take 4 (env_nearest env question (points col)) in
  let w' := mkWorld (store w)
              (calls w ++ [CallSearch Qdrant.COLLECTION_NAME question 4; CallLLM prompt]) in
  match env_llm env prompt with
  | Some content =>
      (Ok ({[ "answer" := VStr content; "context" := VDocs docs ]} : gmap string pyval), w')
  | None => (Err (LLMProviderError "completion failed"), w')
  end.
Proof.
  intros Hchain Hembeds Hanswers Hcol Hprompt.
  rewrite get_answer_eq, Hchain, chain_invoke_eq.
  cbn [Rag.chain_retriever Rag.chain_prompt Rag.r_store Rag.r_k Qdrant.collection_name
       Qdrant.vector_store].
  rewrite Hembeds, Hanswers, Hcol. cbv zeta. rewrite Hprompt.
  destruct (env_llm env prompt); cbn; now rewrite <- app_assoc.
Qed.

(** X2: for a template made of literal text, a protected context slot
    and a question slot, and a question without braces, when the
    question is embedded, the store answers and the default collection
    is there, [get_answer] performs one search and sends one prompt:
    the template with the printed documents and the question in the
    places of the slots.  The dictionary holds the model's reply and
    the retrieved documents; with the retrieval granted, a failing
    model is the only remaining error. *)
Theorem X_prompt_is_the_template_with_both_slots_filled
    env w path col question pre mid post :
  brace_free pre = true -> brace_free mid = true -> brace_free post = true ->
  brace_free question = true ->
  env_files env !! path
  = Some (pre +:+ "{{context}}" +:+ mid +:+ "{question}" +:+ post) ->
  env_embeds env question = true ->
  env_store_answers env question = true ->
  store w !! Qdrant.COLLECTION_NAME = Some col ->
  Rag.get_answer env question path w =
  let docs := take 4 (env_nearest env question (points col)) in
  let prompt :=
    pre +:+ ChatPromptTemplate.docs_str env docs +:+ mid +:+ question +:+ post in
  let w' := mkWorld (store w)
              (calls w ++ [CallSearch Qdrant.COLLECTION_NAME question 4; CallLLM prompt]) in
  match env_llm env prompt with
  | Some content =>
      (Ok ({[ "answer" := VStr content; "context" := VDocs docs ]} : gmap string pyval), w')
  | None => (Err (LLMProviderError "completion failed"), w')
  end.
Proof.
  intros Hpre Hmid Hpost Hq Hfile Hembeds Hanswers Hcol.
  assert (brace_free (mid +:+ question +:+ post) = true) as Hrest.
  { rewrite !brace_free_app, Hmid, Hq, Hpost. reflexivity. }
  apply (get_answer_through env question path w col
           (ChatPromptTemplate.mk (pre +:+ "{context}" +:+ mid +:+ question +:+ post)
              ["context"])).
  - unfold Rag.create_chain, Rag.load_prompt_template.
    rewrite Hfile, (format_two_slots _ _ _ _ _ Hpre Hmid Hpost). cbn.
    now rewrite (from_template_context_slot _ _ Hpre Hrest).
  - exact Hembeds.
  - exact Hanswers.
  - exact Hcol.
  - unfold ChatPromptTemplate.invoke.
    cbn [ChatPromptTemplate.input_variables ChatPromptTemplate.template].
    assert (filter
              (fun v : string =>
                 ({[ "context" := ChatPromptTemplate.docs_str env
                                    (take 4 (env_nearest env question (points col)));
                     "question" := question ]} : gmap string string) !! v = None)
              ["context"] = []) as -> by reflexivity.
    exact (format_context_slot _ _ _ _ _ Hpre Hrest).
Qed.

Lemma X_prompt_is_the_template_with_both_slots_filled_witness :
  Rag.get_answer (Scenario.env Scenario.escaped_template) Scenario.question
    Scenario.template_path Scenario.wiki_world =
  (Ok {[ "answer" := VStr "4"; "context" := VDocs [Scenario.chunk] ]},
   mkWorld (store Scenario.wiki_world)
     (calls Scenario.wiki_world
      ++ [CallSearch Qdrant.COLLECTION_NAME Scenario.question 4;
          CallLLM ("Context: "
                   +:+ ChatPromptTemplate.docs_str (Scenario.env Scenario.escaped_template)
                         [Scenario.chunk]
                   +:+ (nl +:+ "Question: ") +:+ Scenario.question
                   +:+ (nl +:+ "Answer:"))])).
Proof.
  apply (X_prompt_is_the_template_with_both_slots_filled
           (Scenario.env Scenario.escaped_template) Scenario.wiki_world
           Scenario.template_path (mkCollection 1536 COSINE [Scenario.chunk])
           Scenario.question "Context: " (nl +:+ "Question: ") (nl +:+ "Answer:"));
    reflexivity.
Defined.

(** X3: a template without any brace is sent to the model as it is: the
    chain has no slot to fill, so when the retrieval goes through (the
    question is embedded, the store answers, the default collection is
    there) neither the question nor the retrieved documents reach the
    model, although the search is made and its documents are returned
    as context. *)
Theorem X_template_without_slots_is_sent_unchanged env w path col question text :
  brace_free text = true ->
  env_files env !! path = Some text ->
  env_embeds env question = true ->
  env_store_answers env question = true ->
  store w !! Qdrant.COLLECTION_NAME = Some col ->
  Rag.get_answer env question path w =
  let docs := take 4 (env_nearest env question (points col)) in
  let w' := mkWorld (store w)
              (calls w ++ [CallSearch Qdrant.COLLECTION_NAME question 4; CallLLM text]) in
  match env_llm env text with
  | Some content =>
      (Ok ({[ "answer" := VStr content; "context" := VDocs docs ]} : gmap string pyval), w')
  | None => (Err (LLMProviderError "completion failed"), w')
  end.
Proof.
  intros Hfree Hfile Hembeds Hanswers Hcol.
  apply (get_answer_through env question path w col (ChatPromptTemplate.mk text [])).
  - unfold Rag.create_chain, Rag.load_prompt_template.
    rewrite Hfile, (format_plain _ _ _ Hfree). cbn.
    now rewrite (from_template_plain _ Hfree).
  - exact Hembeds.
  - exact Hanswers.
  - exact Hcol.
  - unfold ChatPromptTemplate.invoke. cbn. now apply format_plain.
Qed.

Lemma X_template_without_slots_is_sent_unchanged_witness :
  Rag.get_answer (Scenario.env "Answer briefly.") Scenario.question
    Scenario.template_path Scenario.wiki_world =
  (Ok {[ "answer" := VStr "4"; "context" := VDocs [Scenario.chunk] ]},
   mkWorld (store Scenario.wiki_world)
     (calls Scenario.wiki_world
      ++ [CallSearch Qdrant.COLLECTION_NAME Scenario.question 4;
          CallLLM "Answer briefly."])).
Proof.
  apply (X_template_without_slots_is_sent_unchanged
           (Scenario.env "Answer briefly.") Scenario.wiki_world Scenario.template_path
           (mkCollection 1536 COSINE [Scenario.chunk]) Scenario.question
           "Answer briefly."); reflexivity.
Defined.

Lemma X_question_slot_is_filled_verbatim_witness :
  Rag.load_prompt_template (Scenario.env "Q: {question}!") Scenario.template_path
    "What is {x}?" = Ok ("Q: " +:+ "What is {x}?" +:+ "!").
Proof.
  apply (X_question_slot_is_filled_verbatim (Scenario.env "Q: {question}!")
           Scenario.template_path "What is {x}?" "Q: " "!"); reflexivity.
Defined.

(** ** What the answer pipeline does to the world *)

(** X4: [get_answer] only reads.  Whatever its arguments and outcome,
    the store is left as it was, and the calls it adds are nothing, one
    search, or one search followed by one completion: the model is
    never called without a retrieval before it, and never twice. *)
Theorem X_get_answer_reads_only env question path w :
  store (Rag.get_answer env question path w).2 = store w
  /\ exists new,
       calls (Rag.get_answer env question path w).2 = calls w ++ new
       /\ (new = []
           \/ new = [CallSearch Qdrant.COLLECTION_NAME question 4]
           \/ exists prompt,
                new = [CallSearch Qdrant.COLLECTION_NAME question 4; CallLLM prompt]).
Proof.
  rewrite get_answer_eq.
  destruct (Rag.create_chain env path question) as [c|e] eqn:Hc.
  - rewrite chain_invoke_eq, (create_chain_retriever _ _ _ _ Hc). cbn.
    destruct (env_embeds env question);
      [|split; [reflexivity|]; eexists; split; [reflexivity|auto]].
    destruct (env_store_answers env question);
      [|split; [reflexivity|]; eexists; split; [reflexivity|auto]].
    destruct (store w !! Qdrant.COLLECTION_NAME) as [col|].
    + destruct (ChatPromptTemplate.invoke _ _ _) as [prompt|e].
      * split; [now destruct (env_llm env prompt)|].
        exists [CallSearch Qdrant.COLLECTION_NAME question 4; CallLLM prompt].
        split; [destruct (env_llm env prompt); cbn; now rewrite <- app_assoc|eauto].
      * split; [reflexivity|]. eexists. split; [reflexivity|auto].
    + split; [reflexivity|]. eexists. split; [reflexivity|auto].
  - split; [reflexivity|]. exists []. split; [now rewrite app_nil_r|auto].
Qed.

Lemma get_answer_success env question path w d w' :
  Rag.get_answer env question path w = (Ok d, w') ->
  exists col prompt content,
    store w !! Qdrant.COLLECTION_NAME = Some col
    /\ env_llm env prompt = Some content
    /\ d = {[ "answer" := VStr content;
              "context" := VDocs (take 4 (env_nearest env question (points col))) ]}
    /\ length (take 4 (env_nearest env question (points col))) <= 4
    /\ w' = mkWorld (store w)
              (calls w ++ [CallSearch Qdrant.COLLECTION_NAME question 4; CallLLM prompt]).
Proof.
  rewrite get_answer_eq.
  destruct (Rag.create_chain env path question) as [c|e] eqn:Hc; [|discriminate].
  rewrite chain_invoke_eq, (create_chain_retriever _ _ _ _ Hc). cbn.
  destruct (env_embeds env question); [|discriminate].
  destruct (env_store_answers env question); [|discriminate].
  destruct (store w !! Qdrant.COLLECTION_NAME) as [col|]; [|discriminate].
  destruct (ChatPromptTemplate.invoke _ _ _) as [prompt|e]; [|discriminate].
  destruct (env_llm env prompt) as [content|] eqn:Hllm; [|discriminate].
  intros [= <- <-]. exists col, prompt, content.
  repeat split; try done.
  - rewrite length_take. lia.
  - now rewrite <- app_assoc.
Qed.

(** X5: an answer, when there is one, is the model's reply to the one
    prompt that was sent, and its context is the list the search
    returned: the first four of the default collection's chunks in the
    store's order of nearness, so never more than four. *)
Theorem X_answer_is_reply_and_retrieved_context env question path w d w' :
  Rag.get_answer env question path w = (Ok d, w') ->
  exists col prompt content,
    store w !! Qdrant.COLLECTION_NAME = Some col
    /\ env_llm env prompt = Some content
    /\ d = {[ "answer" := VStr content;
              "context" := VDocs (take 4 (env_nearest env question (points col))) ]}
    /\ length (take 4 (env_nearest env question (points col))) <= 4
    /\ w' = mkWorld (store w)
              (calls w ++ [CallSearch Qdrant.COLLECTION_NAME question 4; CallLLM prompt]).
Proof. apply get_answer_success. Qed.

Lemma X_answer_is_reply_and_retrieved_context_witness :
  exists col prompt content,
    store Scenario.wiki_world !! Qdrant.COLLECTION_NAME = Some col
    /\ env_llm (Scenario.env Scenario.escaped_template) prompt = Some content
    /\ ({[ "answer" := VStr "4"; "context" := VDocs [Scenario.chunk] ]} : gmap string pyval)
       = {[ "answer" := VStr content;
            "context" := VDocs (take 4 (env_nearest (Scenario.env Scenario.escaped_template)
                                          Scenario.question (points col))) ]}
    /\ length (take 4 (env_nearest (Scenario.env Scenario.escaped_template)
                         Scenario.question (points col))) <= 4
    /\ (Rag.get_answer (Scenario.env Scenario.escaped_template) Scenario.question
          Scenario.template_path Scenario.wiki_world).2
       = mkWorld (store Scenario.wiki_world)
           (calls Scenario.wiki_world
            ++ [CallSearch Qdrant.COLLECTION_NAME Scenario.question 4; CallLLM prompt]).
Proof.
  apply (X_answer_is_reply_and_retrieved_context (Scenario.env Scenario.escaped_template)
           Scenario.question Scenario.template_path Scenario.wiki_world).
  vm_compute. reflexivity.
Defined.

(** ** Which errors the pipeline raises, and what the endpoint makes of them *)

Lemma parse_error text e :
  PyFormat.parse text = Err e -> format_error e.
Proof.
  unfold PyFormat.parse, PyFormat.markup.
  destruct (PyFormat.scan _ text) as [segs [e'|]] eqn:Hs; [|discriminate].
  intros [= <-]. destruct (scan_error _ _ _ _ Hs) as [m ->]. exact I.
Qed.

Lemma prompt_invoke_error env p inputs e :
  ChatPromptTemplate.invoke env p inputs = Err e -> format_error e.
Proof.
  unfold ChatPromptTemplate.invoke.
  destruct (filter _ _) as [|missing ?].
  - apply build_string_error.
  - intros [= <-]. exact I.
Qed.

Lemma create_chain_error env path question text e :
  env_files env !! path = Some text ->
  Rag.create_chain env path question = Err e -> format_error e.
Proof.
  intros Hfile. unfold Rag.create_chain, Rag.load_prompt_template. rewrite Hfile.
  destruct (PyFormat.format _ _ text) as [t|e1] eqn:Hf; cbn.
  - destruct (ChatPromptTemplate.from_template t) as [p|e2] eqn:Hp; cbn; [discriminate|].
    intros [= <-]. unfold ChatPromptTemplate.from_template in Hp.
    destruct (PyFormat.parse t) as [segs|e3] eqn:Hparse; cbn in Hp.
    + destruct (forallb _ _); [discriminate|]. injection Hp as <-. exact I.
    + injection Hp as <-. eapply parse_error, Hparse.
  - intros [= <-]. eapply build_string_error, Hf.
Qed.

(** With the template file in place, [get_answer] raises only what
    [str.format], the store or the model raise. *)
Lemma get_answer_error env question path w text e w' :
  env_files env !! path = Some text ->
  Rag.get_answer env question path w = (Err e, w') -> pipeline_error e.
Proof.
  intros Hfile. rewrite get_answer_eq.
  destruct (Rag.create_chain env path question) as [c|e1] eqn:Hc.
  - rewrite chain_invoke_eq, (create_chain_retriever _ _ _ _ Hc). cbn.
    destruct (env_embeds env question);
      [|intros [= <- _]; do 3 right; left; eauto].
    destruct (env_store_answers env question);
      [|intros [= <- _]; now do 4 right].
    destruct (store w !! Qdrant.COLLECTION_NAME) as [col|].
    + destruct (ChatPromptTemplate.invoke _ _ _) as [prompt|e2] eqn:Hp.
      * destruct (env_llm env prompt); [discriminate|].
        intros [= <- _]. right. right. left. eauto.
      * intros [= <- _]. left. eapply prompt_invoke_error, Hp.
    + intros [= <- _]. right. now left.
  - intros [= <- _]. left. eapply create_chain_error; eauto.
Qed.

Lemma chatbot_handler_pipeline e :
  pipeline_error e -> App.chatbot_handler e = unexpected_error.
Proof.
  intros [Hf|[->|[[msg ->]|[[text ->]| ->]]]]; try reflexivity.
  destruct e; try contradiction; reflexivity.
Qed.

Lemma template_missing_false env p :
  App.template_missing env p = false ->
  exists path text, p = Some path /\ env_files env !! path = Some text.
Proof.
  destruct p as [[|c path]|]; cbn; try discriminate.
  intros Hb. apply bool_decide_eq_false in Hb.
  destruct (env_files env !! String c path) as [text|] eqn:Hf; [eauto|congruence].
Qed.

(** X6: the complete status map of [/api/rag].  A template path that is
    absent, empty or names no file is answered 400 before anything is
    called.  Otherwise the request ends either in a response or in 500
    with one fixed detail: no other status is produced, and the text of
    the internal exception is never passed on. *)
Theorem X_rag_endpoint_status_map env payload w :
  (App.template_missing env (App.template_path payload) = true
   /\ App.chatbot_endpoint env payload w
      = (Err (HTTPException 400 ("Template file not found at path: "
                                 +:+ App.show_path (App.template_path payload))), w))
  \/ (App.template_missing env (App.template_path payload) = false
      /\ ((exists response, (App.chatbot_endpoint env payload w).1 = Ok response)
          \/ (App.chatbot_endpoint env payload w).1 = Err unexpected_error)).
Proof.
  destruct (App.template_missing env (App.template_path payload)) eqn:Hmiss.
  - left. split; [reflexivity|].
    unfold App.chatbot_endpoint, App.chatbot_endpoint_with, except, mbind, M_bind, raise.
    now rewrite Hmiss.
  - right. split; [reflexivity|].
    destruct (template_missing_false _ _ Hmiss) as (path & text & Hp & Hfile).
    unfold App.chatbot_endpoint, App.chatbot_endpoint_with,
      except, mbind, M_bind, mret, M_ret, lift.
    rewrite Hmiss, Hp. change (default EmptyString (Some path)) with path.
    destruct (Rag.get_answer env (App.question payload) path w) as [[d|e] w'] eqn:Hrun.
    + destruct (get_answer_dictionary _ _ _ _ _ _ Hrun) as [(a & docs & ->) _].
      left. eexists. reflexivity.
    + right. cbn. f_equal.
      apply chatbot_handler_pipeline. eapply get_answer_error; eauto.
Qed.

Lemma template_missing_present env path text :
  path <> EmptyString ->
  env_files env !! path = Some text ->
  App.template_missing env (Some path) = false.
Proof.
  intros Hne Hfile. destruct path as [|c path]; [congruence|].
  cbn. apply bool_decide_eq_false. congruence.
Qed.

Lemma format_unknown_fails py question template :
  references_unknown template ->
  exists e, PyFormat.format py {[ "question" := question ]} template = Err e.
Proof.
  intros (f & Hin & Hname).
  unfold PyFormat.format. rewrite build_string_S.
  destruct (PyFormat.markup template) as [segs err]. cbn [fst] in Hin.
  destruct (render_fails
              (PyFormat.output_markup py {[ "question" := question ]}
                 (PyFormat.build_string py {[ "question" := question ]} 1))
              segs f Hin) as [e ->]; [|cbn; eauto].
  unfold PyFormat.output_markup, PyFormat.arg_name in *.
  destruct (PyFormat.split_name (PyFormat.f_name f)) as [arg rest]. cbn [fst] in Hname.
  destruct (lookup_arg_unknown question arg Hname) as [e ->]. cbn. eauto.
Qed.

(** X7: a template file that is there but names an unknown placeholder
    stops the request before any search or completion: [get_answer]
    raises the formatting exception with the world untouched, and
    [/api/rag] answers 500, not the 400 of a missing template. *)
Theorem X_unknown_placeholder_is_500_without_effects env question path template w :
  path <> EmptyString ->
  env_files env !! path = Some template ->
  references_unknown template ->
  (exists e, Rag.get_answer env question path w = (Err e, w) /\ format_error e)
  /\ App.chatbot_endpoint env (App.mkQueryRequest question (Some path)) w
     = (Err unexpected_error, w).
Proof.
  intros Hne Hfile Hunknown.
  destruct (format_unknown_fails (env_py env) question template Hunknown) as [e He].
  assert (format_error e) as Hfmt by (eapply build_string_error, He).
  assert (Rag.get_answer env question path w = (Err e, w)) as Hrun.
  { rewrite get_answer_eq. unfold Rag.create_chain, Rag.load_prompt_template.
    now rewrite Hfile, He. }
  split; [eauto|].
  unfold App.chatbot_endpoint, App.chatbot_endpoint_with,
    except, mbind, M_bind, mret, M_ret, lift.
  cbn [App.template_path App.question].
  rewrite (template_missing_present _ _ _ Hne Hfile).
  change (default EmptyString (Some path)) with path. rewrite Hrun.
  f_equal. f_equal. apply chatbot_handler_pipeline. now left.
Qed.

Lemma X_unknown_placeholder_is_500_without_effects_witness :
  (exists e,
     Rag.get_answer (Scenario.env Scenario.template) Scenario.question
       Scenario.template_path Scenario.wiki_world = (Err e, Scenario.wiki_world)
     /\ format_error e)
  /\ App.chatbot_endpoint (Scenario.env Scenario.template)
       (App.mkQueryRequest Scenario.question (Some Scenario.template_path))
       Scenario.wiki_world
     = (Err unexpected_error, Scenario.wiki_world).
Proof.
  apply (X_unknown_placeholder_is_500_without_effects (Scenario.env Scenario.template)
           Scenario.question Scenario.template_path Scenario.template Scenario.wiki_world).
  - discriminate.
  - reflexivity.
  - exists (PyFormat.Field "context" None EmptyString). split.
    + vm_compute. constructor.
    + vm_compute. discriminate.
Defined.

(** A slot whose name has attribute access, indexing or only digits is
    refused when the chain is built: [get_answer] raises [ValueError]
    and nothing has been called. *)
Lemma invalid_slot_is_refused_before_the_search env question path w text segs f :
  Rag.load_prompt_template env path question = Ok text ->
  PyFormat.parse text = Ok segs ->
  f ∈ PyFormat.fields segs ->
  ChatPromptTemplate.valid_variable (PyFormat.f_name f) = false ->
  Rag.get_answer env question path w
  = (Err (ValueError "Invalid variable name in f-string template"), w).
Proof.
  intros Hload Hparse Hin Hbad.
  rewrite get_answer_eq. unfold Rag.create_chain, ChatPromptTemplate.from_template.
  rewrite Hload. cbn. rewrite Hparse. cbn.
  assert (forallb ChatPromptTemplate.valid_variable
            (PyFormat.f_name <$> PyFormat.fields segs) = false) as ->; [|reflexivity].
  apply not_true_is_false. intros Hall.
  rewrite forallb_forall in Hall.
  rewrite (Hall (PyFormat.f_name f)) in Hbad; [discriminate|].
  apply list_elem_of_In. now apply list_elem_of_fmap_2.
Qed.

(** X8: text produced by the first stage is read as a template again.
    When the chain accepts it and it holds a slot that is neither
    [context] nor [question] (a question with braces puts one there),
    a run whose retrieval goes through makes its search and then stops
    with [KeyError]: no prompt is sent to the model. *)
Theorem X_leftover_slot_stops_after_the_search env question path w col text p slot :
  Rag.load_prompt_template env path question = Ok text ->
  ChatPromptTemplate.from_template text = Ok p ->
  slot ∈ ChatPromptTemplate.input_variables p ->
  slot <> "context" ->
  slot <> "question" ->
  env_embeds env question = true ->
  env_store_answers env question = true ->
  store w !! Qdrant.COLLECTION_NAME = Some col ->
  exists missing,
    Rag.get_answer env question path w
    = (Err (KeyError missing),
       mkWorld (store w) (calls w ++ [CallSearch Qdrant.COLLECTION_NAME question 4])).
Proof.
  intros Hload Htemplate Hin Hctx Hq Hembeds Hanswers Hcol.
  rewrite get_answer_eq. unfold Rag.create_chain.
  rewrite Hload. cbn. rewrite Htemplate. cbn.
  rewrite chain_invoke_eq.
  cbn [Rag.chain_retriever Rag.chain_prompt Rag.r_store Rag.r_k Rag.with_config
       Rag.as_retriever Qdrant.collection_name Qdrant.vector_store].
  rewrite Hembeds, Hanswers, Hcol. cbv zeta. unfold ChatPromptTemplate.invoke.
  destruct (filter _ _) as [|missing others] eqn:Hfilter; [|eauto].
  exfalso. apply (elem_of_nil slot). rewrite <- Hfilter.
  apply list_elem_of_filter. split; [|exact Hin].
  rewrite lookup_insert_ne by congruence. now rewrite lookup_singleton_ne by congruence.
Qed.

Lemma X_leftover_slot_stops_after_the_search_witness :
  exists missing,
    Rag.get_answer (Scenario.env Scenario.escaped_template) "What is {x}?"
      Scenario.template_path Scenario.wiki_world
    = (Err (KeyError missing),
       mkWorld (store Scenario.wiki_world)
         (calls Scenario.wiki_world
          ++ [CallSearch Qdrant.COLLECTION_NAME "What is {x}?" 4])).
Proof.
  apply (X_leftover_slot_stops_after_the_search (Scenario.env Scenario.escaped_template)
           "What is {x}?" Scenario.template_path Scenario.wiki_world
           (mkCollection 1536 COSINE [Scenario.chunk])
           ("Context: {context}" +:+ nl +:+ "Question: What is {x}?" +:+ nl +:+ "Answer:")
           (ChatPromptTemplate.mk
              ("Context: {context}" +:+ nl +:+ "Question: What is {x}?" +:+ nl
               +:+ "Answer:") ["context"; "x"])
           "x").
  - vm_compute. reflexivity.
  - vm_compute. reflexivity.
  - vm_compute. right. constructor.
  - discriminate.
  - discriminate.
  - reflexivity.
  - reflexivity.
  - reflexivity.
Defined.

(** ** Ingestion and the upload endpoint *)

(** X9: [upload_documents] only ever appends to the collection it is
    given.  Whatever the outcome, every other collection is as before,
    a missing collection is not created, and an existing one keeps its
    vector size, its distance and its chunks in front of anything new. *)
Theorem X_upload_documents_only_appends env url name w :
  (forall other, other <> name ->
     store (Qdrant.upload_documents env url name w).2 !! other = store w !! other)
  /\ match store w !! name with
     | None => store (Qdrant.upload_documents env url name w).2 !! name = None
     | Some c =>
         exists added,
           store (Qdrant.upload_documents env url name w).2 !! name
           = Some (mkCollection (vector_size c) (distance c) (points c ++ added))
     end.
Proof.
  rewrite upload_documents_eq. cbn.
  destruct (env_load_and_split env url) as [docs|]; cbn.
  - unfold QdrantClient.add_documents. cbn.
    destruct (store w !! name) as [c|] eqn:Hc; cbn.
    + destruct (QdrantClient.first_unembedded env _); cbn; (split;
        [intros other Hne; now rewrite lookup_insert_ne
        |eexists; now rewrite lookup_insert_eq]).
    + split; [reflexivity|exact Hc].
  - split; [reflexivity|].
    destruct (store w !! name) as [c|] eqn:Hc; [|reflexivity].
    exists []. rewrite app_nil_r. now destruct c.
Qed.

(** The inserted chunks are the leading ones. *)
Lemma embedded_prefix_take env documents :
  QdrantClient.embedded_prefix env documents
  = take (length (QdrantClient.embedded_prefix env documents)) documents.
Proof.
  induction documents as [|d documents IH]; cbn; [reflexivity|].
  destruct (env_embeds env (page_content d)); cbn; [|reflexivity].
  now rewrite <- IH.
Qed.

Lemma upload_documents_stored env url name w c docs :
  store w !! name = Some c ->
  env_load_and_split env url = Some docs ->
  store (Qdrant.upload_documents env url name w).2 !! name
  = Some (mkCollection (vector_size c) (distance c)
            (points c ++ QdrantClient.embedded_prefix env (Qdrant.tag url <$> docs))).
Proof.
  intros Hc Hdocs. rewrite upload_documents_eq. cbn. rewrite Hdocs.
  unfold QdrantClient.add_documents. cbn. rewrite Hc.
  destruct (QdrantClient.first_unembedded env _); cbn; apply lookup_insert_eq.
Qed.

Lemma upload_documents_ok_all env url name w c docs :
  store w !! name = Some c ->
  env_load_and_split env url = Some docs ->
  (Qdrant.upload_documents env url name w).1 = Ok tt ->
  QdrantClient.first_unembedded env (Qdrant.tag url <$> docs) = None.
Proof.
  intros Hc Hdocs. rewrite upload_documents_eq. cbn. rewrite Hdocs.
  unfold QdrantClient.add_documents. cbn. rewrite Hc.
  destruct (QdrantClient.first_unembedded env _); [discriminate|reflexivity].
Qed.

Lemma tag_keeps_other_metadata url docs :
  Forall2 (fun s d => forall key, key <> "source_url" ->
                        metadata s !! key = metadata d !! key)
    (Qdrant.tag url <$> docs) docs.
Proof.
  apply Forall2_fmap_l, Forall2_same_length_lookup. split; [reflexivity|].
  intros i s d Hs Hd key Hkey. assert (s = d) as -> by congruence.
  cbn. now rewrite lookup_insert_ne.
Qed.

(** X10: an ingestion into an existing collection stores the loader's
    chunks in the loader's order with their text unchanged; of the
    metadata only the [source_url] entry is written, every other key
    keeps its value.  A successful call stores all of them; a call
    that fails on the way has stored the leading ones, in the same
    form. *)
Theorem X_upload_documents_keeps_text_and_metadata env url name w c docs :
  store w !! name = Some c ->
  env_load_and_split env url = Some docs ->
  exists stored,
    store (Qdrant.upload_documents env url name w).2 !! name
    = Some (mkCollection (vector_size c) (distance c) (points c ++ stored))
    /\ page_content <$> stored = take (length stored) (page_content <$> docs)
    /\ Forall2 (fun s d => forall key, key <> "source_url" ->
                             metadata s !! key = metadata d !! key)
         stored (take (length stored) docs)
    /\ ((Qdrant.upload_documents env url name w).1 = Ok tt ->
        page_content <$> stored = page_content <$> docs
        /\ Forall2 (fun s d => forall key, key <> "source_url" ->
                                 metadata s !! key = metadata d !! key) stored docs).
Proof.
  intros Hc Hdocs.
  exists (QdrantClient.embedded_prefix env (Qdrant.tag url <$> docs)).
  split; [now apply upload_documents_stored|].
  assert (QdrantClient.embedded_prefix env (Qdrant.tag url <$> docs)
          = Qdrant.tag url <$>
              take (length (QdrantClient.embedded_prefix env (Qdrant.tag url <$> docs)))
                   docs) as Hprefix.
  { rewrite fmap_take. apply embedded_prefix_take. }
  split; [|split].
  - rewrite Hprefix at 1. rewrite <- list_fmap_compose, <- fmap_take. reflexivity.
  - rewrite Hprefix at 1. apply tag_keeps_other_metadata.
  - intros Hok.
    rewrite (embedded_prefix_all _ _ (upload_documents_ok_all _ _ _ _ _ _ Hc Hdocs Hok)).
    split; [now rewrite <- list_fmap_compose|apply tag_keeps_other_metadata].
Qed.

Lemma X_upload_documents_keeps_text_and_metadata_witness :
  exists stored,
    store (Qdrant.upload_documents (Scenario.env EmptyString) Scenario.page_url "Wiki_2"
             Scenario.wiki_world).2 !! "Wiki_2"
    = Some (mkCollection 1536 COSINE ([Scenario.chunk] ++ stored))
    /\ page_content <$> stored = take (length stored) (page_content <$> [Scenario.chunk])
    /\ Forall2 (fun s d => forall key, key <> "source_url" ->
                             metadata s !! key = metadata d !! key)
         stored (take (length stored) [Scenario.chunk])
    /\ ((Qdrant.upload_documents (Scenario.env EmptyString) Scenario.page_url "Wiki_2"
           Scenario.wiki_world).1 = Ok tt ->
        page_content <$> stored = page_content <$> [Scenario.chunk]
        /\ Forall2 (fun s d => forall key, key <> "source_url" ->
                                 metadata s !! key = metadata d !! key)
             stored [Scenario.chunk]).
Proof.
  apply (X_upload_documents_keeps_text_and_metadata (Scenario.env EmptyString)
           Scenario.page_url "Wiki_2" Scenario.wiki_world
           (mkCollection 1536 COSINE [Scenario.chunk]) [Scenario.chunk]);
    reflexivity.
Defined.

(** X11: when [/api/upload] answers, the answer is 200 with the success
    message, the collection name was new, the page loaded, and the
    store now holds that collection with vector size 1536, cosine
    distance and exactly the page's tagged chunks; the store was asked
    to create, the page was fetched, and the store was asked to insert. *)
Theorem X_upload_endpoint_creates_and_fills env url name w response w' :
  App.upload_documents_endpoint env (App.mkUploadRequest url name) w = (Ok response, w') ->
  store w !! name = None
  /\ exists docs,
       env_load_and_split env url = Some docs
       /\ response
          = App.mkJSONResponse 200
              ("Documents from '" +:+ url +:+ "' uploaded successfully to collection '"
               +:+ name +:+ "'.")
       /\ w' = mkWorld
                 (<[name := mkCollection 1536 COSINE (Qdrant.tag url <$> docs)]> (store w))
                 (calls w ++ [CallCreateCollection name 1536 COSINE; CallFetch url;
                              CallAddDocuments name (Qdrant.tag url <$> docs)]).
Proof.
  unfold App.upload_documents_endpoint, except, mbind, M_bind, mret, M_ret.
  cbn [App.collection_name App.url].
  destruct (store w !! name) as [c|] eqn:Hname.
  - rewrite create_collection_eq. unfold QdrantClient.create_collection.
    rewrite Hname. discriminate.
  - rewrite (create_collection_fresh _ _ _ Hname).
    destruct (Qdrant.upload_documents env url name _) as [[[]|e] w1] eqn:Hup;
      [|discriminate].
    intros [= <- <-]. split; [reflexivity|].
    destruct (env_load_and_split env url) as [docs|] eqn:Hdocs.
    + exists docs. split; [reflexivity|]. split; [reflexivity|].
      erewrite upload_documents_existing in Hup;
        [|cbn; apply lookup_insert_eq|exact Hdocs|now rewrite Hup].
      injection Hup as <-. cbn. now rewrite insert_insert_eq, <- app_assoc.
    + rewrite upload_documents_eq in Hup. cbn in Hup. rewrite Hdocs in Hup.
      discriminate.
Qed.

Lemma X_upload_endpoint_creates_and_fills_witness :
  store Scenario.empty_world !! "c1" = None
  /\ exists docs,
       env_load_and_split (Scenario.env EmptyString) Scenario.page_url = Some docs
       /\ App.mkJSONResponse 200
            "Documents from 'https://example.com/page' uploaded successfully to collection 'c1'."
          = App.mkJSONResponse 200
              ("Documents from '" +:+ Scenario.page_url
               +:+ "' uploaded successfully to collection '" +:+ "c1" +:+ "'.")
       /\ Scenario.first_upload.2
          = mkWorld
              (<["c1" := mkCollection 1536 COSINE (Qdrant.tag Scenario.page_url <$> docs)]>
                 (store Scenario.empty_world))
              (calls Scenario.empty_world
               ++ [CallCreateCollection "c1" 1536 COSINE; CallFetch Scenario.page_url;
                   CallAddDocuments "c1" (Qdrant.tag Scenario.page_url <$> docs)]).
Proof.
  apply (X_upload_endpoint_creates_and_fills (Scenario.env EmptyString)
           Scenario.page_url "c1" Scenario.empty_world).
  vm_compute. reflexivity.
Defined.



(** X13: a response of [/api/rag] is never built from the defaults.  Its
    answer is the model's reply to the prompt that was sent and its
    context is the list of at most four retrieved documents; the store
    is as before and the log shows the search and the completion. *)
Theorem X_rag_response_carries_reply_and_context env payload w response w' :
  App.chatbot_endpoint env payload w = (Ok response, w') ->
  exists path col prompt,
    App.template_path payload = Some path
    /\ store w !! Qdrant.COLLECTION_NAME = Some col
    /\ env_llm env prompt = Some (App.answer response)
    /\ App.context response
       = VDocs (take 4 (env_nearest env (App.question payload) (points col)))
    /\ w' = mkWorld (store w)
              (calls w ++ [CallSearch Qdrant.COLLECTION_NAME (App.question payload) 4;
                           CallLLM prompt]).
Proof.
  unfold App.chatbot_endpoint, App.chatbot_endpoint_with,
    except, mbind, M_bind, mret, M_ret, lift, raise.
  destruct (App.template_missing env (App.template_path payload)) eqn:Hmiss;
    [discriminate|].
  destruct (template_missing_false _ _ Hmiss) as (path & text & Hp & Hfile).
  rewrite Hp. change (default EmptyString (Some path)) with path.
  destruct (Rag.get_answer env (App.question payload) path w) as [[d|e] w1] eqn:Hrun;
    [|discriminate].
  destruct (get_answer_success _ _ _ _ _ _ Hrun)
    as (col & prompt & content & Hcol & Hllm & -> & _ & ->).
  cbn. intros [= <- <-]. exists path, col, prompt. cbn. auto.
Qed.

Lemma X_rag_response_carries_reply_and_context_witness :
  exists path col prompt,
    App.template_path
      (App.mkQueryRequest Scenario.question (Some Scenario.template_path)) = Some path
    /\ store Scenario.wiki_world !! Qdrant.COLLECTION_NAME = Some col
    /\ env_llm (Scenario.env Scenario.escaped_template) prompt
       = Some (App.answer (App.mkQueryResponse "4" (VDocs [Scenario.chunk])))
    /\ App.context (App.mkQueryResponse "4" (VDocs [Scenario.chunk]))
       = VDocs (take 4 (env_nearest (Scenario.env Scenario.escaped_template)
                          (App.question
                             (App.mkQueryRequest Scenario.question
                                (Some Scenario.template_path)))
                          (points col)))
    /\ (App.chatbot_endpoint (Scenario.env Scenario.escaped_template)
          (App.mkQueryRequest Scenario.question (Some Scenario.template_path))
          Scenario.wiki_world).2
       = mkWorld (store Scenario.wiki_world)
           (calls Scenario.wiki_world
            ++ [CallSearch Qdrant.COLLECTION_NAME
                  (App.question
                     (App.mkQueryRequest Scenario.question (Some Scenario.template_path)))
                  4;
                CallLLM prompt]).
Proof.
  apply (X_rag_response_carries_reply_and_context
           (Scenario.env Scenario.escaped_template)
           (App.mkQueryRequest Scenario.question (Some Scenario.template_path))
           Scenario.wiki_world (App.mkQueryResponse "4" (VDocs [Scenario.chunk]))).
  vm_compute. reflexivity.
Defined.
